(** * Reconciliation of supplier stock and prices against marketplace offers

    A shallow embedding of [seller.py] (Ozon) and [market.py] (Yandex Market):
    the quantity and price normalisers, the batcher [divide], the two
    reconciliation passes [create_stocks] and [create_prices], and the part of
    [seller.main] that drives them.

    Conventions of the embedding.
    - Python text is a [string] holding its UTF-8 bytes.  Equality of texts is
      equality of byte sequences, and the only characters the code inspects
      (the dot, the ASCII digits) are single bytes that never occur inside a
      multi-byte sequence.
    - A supplier row (a [dict] built by pandas) is a [gmap string PyVal];
      [dict.get] returns [None] for a missing key.
    - Cell values are texts, integers, booleans or [None].  Binary floats are
      left out: their text form is not expressible here.
    - The list [offer_ids] holds texts, as its docstring says.  It is an
      object shared with the caller, so the passes are written in a
      state-and-exception monad whose state is the content of that list.
    - [datetime.utcnow()] is read once per call; its text is the argument
      [date] of [Market.create_stocks].
    - [int] of a text made of ASCII characters is written out.  What [int]
      makes of a text that holds a character outside ASCII (a decimal digit
      of another script, a no-break space) depends on the character tables
      of the interpreter: it is the parameter [wide_int] of the class
      [Interpreter], and every general statement holds for every
      interpreter.  The closed instances are stated under [ascii_only],
      which converts no such text; the texts they convert are ASCII, so
      any other interpreter gives the same values.
    - The interpreter's length limit on decimal conversions is not
      modelled. *)

From Stdlib Require Import ZArith Lia Ascii String DecimalString DecimalZ.
From stdpp Require Import base list strings gmap.

Local Open Scope string_scope.
Local Open Scope list_scope.
Local Open Scope Z_scope.

(** ** Python values and exceptions *)

Inductive PyVal : Type :=
  | PyNone
  | PyBool (b : bool)
  | PyInt (n : Z)
  | PyStr (s : string).

Inductive exn : Type :=
  | ValueError
  | TypeError
  | AttributeError
  | IndexError
  | HTTPError
  | ReadTimeout
  | ConnectionError.

Inductive res (A : Type) : Type :=
  | Ok (a : A)
  | Raise (e : exn).
Arguments Ok {A} a.
Arguments Raise {A} e.

Definition is_ok {A} (r : res A) : bool :=
  match r with Ok _ => true | Raise _ => false end.

Definition res_map {A B} (f : A → B) (r : res A) : res B :=
  match r with Ok a => Ok (f a) | Raise e => Raise e end.

(** [str(v)] *)
Definition py_str (v : PyVal) : string :=
  match v with
  | PyNone => "None"
  | PyBool true => "True"
  | PyBool false => "False"
  | PyInt n => NilZero.string_of_int (Z.to_int n)
  | PyStr s => s
  end.

(** *** [int(text)] in base ten *)

Definition is_digit (c : ascii) : bool :=
  let n := nat_of_ascii c in (48 <=? n)%nat && (n <=? 57)%nat.

Definition digit_val (c : ascii) : Z := Z.of_nat (nat_of_ascii c) - 48.

(** The white space that [int] skips at both ends of an ASCII text: tab,
    line feed, vertical tab, form feed, carriage return and space. *)
Definition is_space (c : ascii) : bool :=
  let n := nat_of_ascii c in
  ((9 <=? n)%nat && (n <=? 13)%nat) || Nat.eqb n 32.

Fixpoint lstrip (s : string) : string :=
  match s with
  | String c rest => if is_space c then lstrip rest else s
  | EmptyString => EmptyString
  end.

Fixpoint rstrip (s : string) : string :=
  match s with
  | String c rest =>
      match rstrip rest with
      | EmptyString => if is_space c then EmptyString else String c EmptyString
      | kept => String c kept
      end
  | EmptyString => EmptyString
  end.

Definition strip (s : string) : string := rstrip (lstrip s).

(** Digits after a first digit was read; one underscore may separate two
    digits. *)
Fixpoint int_digits (s : string) (acc : Z) : option Z :=
  match s with
  | EmptyString => Some acc
  | String c rest =>
      if is_digit c then int_digits rest (10 * acc + digit_val c)
      else if Ascii.eqb c "_" then
        match rest with
        | String d rest' =>
            if is_digit d then int_digits rest' (10 * acc + digit_val d)
            else None
        | EmptyString => None
        end
      else None
  end.

Definition int_magnitude (s : string) : option Z :=
  match s with
  | String c rest => if is_digit c then int_digits rest (digit_val c) else None
  | EmptyString => None
  end.

(** [int] of a text of ASCII characters. *)
Definition int_of_ascii_text (s : string) : option Z :=
  let body := strip s in
  match body with
  | String "-" rest => Z.opp <$> int_magnitude rest
  | String "+" rest => int_magnitude rest
  | _ => int_magnitude body
  end.

Fixpoint is_ascii (s : string) : bool :=
  match s with
  | EmptyString => true
  | String c rest => (nat_of_ascii c <? 128)%nat && is_ascii rest
  end.

(** What [int] makes of a text that holds a character outside ASCII: its
    value, or [None] when [int] raises [ValueError]. *)
Class Interpreter : Type := { wide_int : string → option Z }.

Definition ascii_only : Interpreter := {| wide_int := λ _, None |}.

Definition int_of_text `{Interpreter} (s : string) : res Z :=
  match (if is_ascii s then int_of_ascii_text s else wide_int s) with
  | Some n => Ok n
  | None => Raise ValueError
  end.

(** [int(v)] *)
Definition py_int `{Interpreter} (v : PyVal) : res Z :=
  match v with
  | PyNone => Raise TypeError
  | PyBool b => Ok (if b then 1 else 0)
  | PyInt n => Ok n
  | PyStr s => int_of_text s
  end.

(** ** Supplier rows *)

Definition dict_get (key : string) (d : gmap string PyVal) : PyVal :=
  default PyNone (d !! key).

Definition row (code qty price : PyVal) : gmap string PyVal :=
  {[ "Код" := code; "Количество" := qty; "Цена" := price ]}.

(** ** The state-and-exception monad

    [M St A] is a computation that reads and writes a store [St] and either
    returns an [A] or raises.  A raise keeps the store as it was written so
    far: Python does not roll back. *)

Definition M (St A : Type) : Type := St → St * res A.

Definition ret {St A} (a : A) : M St A := λ st, (st, Ok a).

Definition bind {St A B} (m : M St A) (k : A → M St B) : M St B :=
  λ st, match m st with
        | (st', Ok a) => k a st'
        | (st', Raise e) => (st', Raise e)
        end.

Definition get {St} : M St St := λ st, (st, Ok st).

Definition lift {St A} (r : res A) : M St A := λ st, (st, r).

Notation "x <- m ;; k" := (bind m (λ x, k))
  (at level 100, m at next level, right associativity).

(** [offer_ids.remove(x)]: drops the first element equal to [x]. *)
Fixpoint list_remove (x : string) (l : list string) : option (list string) :=
  match l with
  | [] => None
  | y :: l' => if decide (y = x) then Some l' else (y ::.) <$> list_remove x l'
  end.

Definition remove (x : string) : M (list string) unit :=
  λ l, match list_remove x l with
       | Some l' => (l', Ok tt)
       | None => (l, Raise ValueError)
       end.

(** ** Normalisers and batcher (seller.py) *)

(** The quantity rule written inline in both [create_stocks]
    (seller.py 238-244, market.py 197-203): the sentinels are compared on
    [str(token)], the conversion is [int(token)] on the token itself. *)
Definition stock_of_count `{Interpreter} (token : PyVal) : res Z :=
  let count := py_str token in
  if String.eqb count ">10" then Ok 100
  else if String.eqb count "1" then Ok 0
  else py_int token.

(** [text.split(sep)] for a one-character separator. *)
Fixpoint split (sep : ascii) (s : string) : list string :=
  match s with
  | EmptyString => [EmptyString]
  | String c rest =>
      if Ascii.eqb c sep then EmptyString :: split sep rest
      else match split sep rest with
           | piece :: pieces => String c piece :: pieces
           | [] => [String c EmptyString]
           end
  end.

(** [re.sub] of every character outside [0-9] by the empty text. *)
Fixpoint sub_non_digits (s : string) : string :=
  match s with
  | EmptyString => EmptyString
  | String c rest =>
      if is_digit c then String c (sub_non_digits rest) else sub_non_digits rest
  end.

(** [pieces[0]] *)
Definition first_item {A} (pieces : list A) : res A :=
  match pieces with
  | piece :: _ => Ok piece
  | [] => Raise IndexError
  end.

Definition price_conversion (price : string) : res string :=
  res_map sub_non_digits (first_item (split "." price)).

(** [price_conversion] applied to a cell: only a text has [split]. *)
Definition price_conversion_val (price : PyVal) : res string :=
  match price with
  | PyStr s => price_conversion s
  | _ => Raise AttributeError
  end.

(** [range(start, stop, step)] *)
Definition py_range (start stop step : Z) : res (list Z) :=
  if step =? 0 then Raise ValueError
  else
    let '(lo, hi, stride) :=
      if 0 <? step then (start, stop, step) else (stop, start, - step) in
    let len := if hi <=? lo then 0 else (hi - lo - 1) / stride + 1 in
    Ok ((λ k : nat, start + Z.of_nat k * step) <$> seq 0 (Z.to_nat len)).

Definition slice_bound (len i : Z) : Z :=
  if i <? 0 then Z.max 0 (i + len) else Z.min i len.

(** [lst[i:j]] *)
Definition py_slice {A} (lst : list A) (i j : Z) : list A :=
  let len := Z.of_nat (length lst) in
  let a := slice_bound len i in
  let b := slice_bound len j in
  take (Z.to_nat (b - a)) (drop (Z.to_nat a) lst).

(** The generator of [divide] drained by [list(...)]: the store is the list
    object [lst]; every step reads it again. *)
Fixpoint divide_steps {A} (indices : list Z) (n : Z) : M (list A) (list (list A)) :=
  match indices with
  | [] => ret []
  | i :: indices' =>
      lst <- get ;;
      chunks <- divide_steps indices' n ;;
      ret (py_slice lst i (i + n) :: chunks)
  end.

Definition divide_gen {A} (n : Z) : M (list A) (list (list A)) :=
  lst <- get ;;
  indices <- lift (py_range 0 (Z.of_nat (length lst)) n) ;;
  divide_steps indices n.

(** [list(divide(lst, n))] *)
Definition divide {A} (lst : list A) (n : Z) : res (list (list A)) :=
  snd (divide_gen n lst).

(** ** seller.py *)

Module Seller.

Record Stock : Type := { offer_id : string; stock : Z }.

Record Price : Type := {
  auto_action_enabled : string;
  currency_code : string;
  price_offer_id : string;
  old_price : string;
  price : string }.

Fixpoint stocks_loop `{Interpreter} (watch_remnants : list (gmap string PyVal))
    (stocks : list Stock) : M (list string) (list Stock) :=
  match watch_remnants with
  | [] => ret stocks
  | watch :: rest =>
      offer_ids <- get ;;
      if bool_decide (py_str (dict_get "Код" watch) ∈ offer_ids) then
        stock <- lift (stock_of_count (dict_get "Количество" watch)) ;;
        let stocks :=
          stocks ++ [ {| offer_id := py_str (dict_get "Код" watch);
                         stock := stock |} ] in
        _ <- remove (py_str (dict_get "Код" watch)) ;;
        stocks_loop rest stocks
      else stocks_loop rest stocks
  end.

Definition create_stocks `{Interpreter} (watch_remnants : list (gmap string PyVal))
    : M (list string) (list Stock) :=
  stocks <- stocks_loop watch_remnants [] ;;
  offer_ids <- get ;;
  ret (foldl (λ stocks offer_id,
                stocks ++ [ {| offer_id := offer_id; stock := 0 |} ])
             stocks offer_ids).

Fixpoint prices_loop (watch_remnants : list (gmap string PyVal))
    (prices : list Price) : M (list string) (list Price) :=
  match watch_remnants with
  | [] => ret prices
  | watch :: rest =>
      offer_ids <- get ;;
      if bool_decide (py_str (dict_get "Код" watch) ∈ offer_ids) then
        converted <- lift (price_conversion_val (dict_get "Цена" watch)) ;;
        let price :=
          {| auto_action_enabled := "UNKNOWN";
             currency_code := "RUB";
             price_offer_id := py_str (dict_get "Код" watch);
             old_price := "0";
             price := converted |} in
        prices_loop rest (prices ++ [price])
      else prices_loop rest prices
  end.

Definition create_prices (watch_remnants : list (gmap string PyVal))
    : M (list string) (list Price) :=
  prices_loop watch_remnants [].

(** *** [main]

    The store of [main] is the fetched [offer_ids] list together with the
    requests sent so far; [update_stocks] and [update_price] are the two
    network calls, which answer or raise. *)

Inductive request : Type :=
  | StocksRequest (batch : list Stock)
  | PricesRequest (batch : list Price).

Definition on_offer_ids {A} (m : M (list string) A)
    : M (list string * list request) A :=
  λ '(ids, sent), let '(ids', r) := m ids in ((ids', sent), r).

Fixpoint for_each {St A} (body : A → M St unit) (items : list A) : M St unit :=
  match items with
  | [] => ret tt
  | x :: items' => _ <- body x ;; for_each body items'
  end.

Section Main.
Variable network : request → res unit.

Definition send (q : request) : M (list string * list request) unit :=
  λ '(ids, sent), ((ids, sent ++ [q]), network q).

(** The body of the [try] block, after the two fetches; it returns the
    local [prices]. *)
Definition main_try `{Interpreter} (watch_remnants : list (gmap string PyVal))
    : M (list string * list request) (list Price) :=
  stocks <- on_offer_ids (create_stocks watch_remnants) ;;
  stock_batches <- lift (divide stocks 100) ;;
  _ <- for_each (λ some_stock, send (StocksRequest some_stock)) stock_batches ;;
  prices <- on_offer_ids (create_prices watch_remnants) ;;
  price_batches <- lift (divide prices 900) ;;
  _ <- for_each (λ some_price, send (PricesRequest some_price)) price_batches ;;
  ret prices.

(** [main]: every exception is caught and printed; what remains is the
    list of requests that went out. *)
Definition main `{Interpreter} (offer_ids : list string)
    (watch_remnants : list (gmap string PyVal)) : list request :=
  snd (fst (main_try watch_remnants (offer_ids, []))).
End Main.

End Seller.

(** ** market.py *)

Module Market.

Record Item : Type := { count : Z; type : string; updatedAt : string }.

Record Stock : Type := { sku : string; warehouseId : string; items : list Item }.

Record PriceValue : Type := { value : Z; currencyId : string }.

Record Price : Type := { id : string; price : PriceValue }.

(** [date] is the reading of the clock taken at the start of the call. *)
Fixpoint stocks_loop `{Interpreter} (date warehouse_id : string)
    (watch_remnants : list (gmap string PyVal))
    (stocks : list Stock) : M (list string) (list Stock) :=
  match watch_remnants with
  | [] => ret stocks
  | watch :: rest =>
      offer_ids <- get ;;
      if bool_decide (py_str (dict_get "Код" watch) ∈ offer_ids) then
        stock <- lift (stock_of_count (dict_get "Количество" watch)) ;;
        let stocks :=
          stocks ++ [ {| sku := py_str (dict_get "Код" watch);
                         warehouseId := warehouse_id;
                         items := [ {| count := stock; type := "FIT";
                                       updatedAt := date |} ] |} ] in
        _ <- remove (py_str (dict_get "Код" watch)) ;;
        stocks_loop date warehouse_id rest stocks
      else stocks_loop date warehouse_id rest stocks
  end.

Definition create_stocks `{Interpreter} (date : string)
    (watch_remnants : list (gmap string PyVal)) (warehouse_id : string)
    : M (list string) (list Stock) :=
  stocks <- stocks_loop date warehouse_id watch_remnants [] ;;
  offer_ids <- get ;;
  ret (foldl (λ stocks offer_id,
                stocks ++ [ {| sku := offer_id;
                               warehouseId := warehouse_id;
                               items := [ {| count := 0; type := "FIT";
                                             updatedAt := date |} ] |} ])
             stocks offer_ids).

Fixpoint prices_loop `{Interpreter} (watch_remnants : list (gmap string PyVal))
    (prices : list Price) : M (list string) (list Price) :=
  match watch_remnants with
  | [] => ret prices
  | watch :: rest =>
      offer_ids <- get ;;
      if bool_decide (py_str (dict_get "Код" watch) ∈ offer_ids) then
        converted <- lift (price_conversion_val (dict_get "Цена" watch)) ;;
        amount <- lift (int_of_text converted) ;;
        let price :=
          {| id := py_str (dict_get "Код" watch);
             price := {| value := amount; currencyId := "RUR" |} |} in
        prices_loop rest (prices ++ [price])
      else prices_loop rest prices
  end.

Definition create_prices `{Interpreter} (watch_remnants : list (gmap string PyVal))
    : M (list string) (list Price) :=
  prices_loop watch_remnants [].

End Market.

(** ** The spec's quantity rule, as worded

    [quantityNormalize] follows section 4.1 of the specification: the three
    rules are applied to the text form of the token, the third one parsing
    that text.  It is compared with [stock_of_count] below. *)
Definition quantityNormalize `{Interpreter} (s : string) : res Z :=
  if String.eqb s ">10" then Ok 100
  else if String.eqb s "1" then Ok 0
  else int_of_text s.

(** ** Vocabulary of the statements *)

Definition chars : string → list ascii := list_ascii_of_string.

Definition dot : ascii := "."%char.

Definition code_of (watch : gmap string PyVal) : string :=
  py_str (dict_get "Код" watch).

Definition count_of (watch : gmap string PyVal) : PyVal :=
  dict_get "Количество" watch.

Definition price_of (watch : gmap string PyVal) : PyVal :=
  dict_get "Цена" watch.

(** [l] without the first occurrence of [x]. *)
Fixpoint drop_first (x : string) (l : list string) : list string :=
  match l with
  | [] => []
  | y :: l' => if decide (y = x) then l' else y :: drop_first x l'
  end.

(** The rows that find their code in the working universe when the stock
    loop reaches them, and the universe that is left at the end. *)
Fixpoint matched (rows : list (gmap string PyVal)) (universe : list string)
    : list (gmap string PyVal) :=
  match rows with
  | [] => []
  | watch :: rows' =>
      if bool_decide (code_of watch ∈ universe)
      then watch :: matched rows' (drop_first (code_of watch) universe)
      else matched rows' universe
  end.

Fixpoint unmatched (rows : list (gmap string PyVal)) (universe : list string)
    : list string :=
  match rows with
  | [] => universe
  | watch :: rows' =>
      if bool_decide (code_of watch ∈ universe)
      then unmatched rows' (drop_first (code_of watch) universe)
      else unmatched rows' universe
  end.

(** The rows whose code occurs neither in [seen] nor in an earlier row. *)
Fixpoint first_rows (seen : list string) (rows : list (gmap string PyVal))
    : list (gmap string PyVal) :=
  match rows with
  | [] => []
  | watch :: rows' =>
      if bool_decide (code_of watch ∈ seen) then first_rows seen rows'
      else watch :: first_rows (code_of watch :: seen) rows'
  end.

Definition stock_value `{Interpreter} (watch : gmap string PyVal) : Z :=
  match stock_of_count (count_of watch) with
  | Ok quantity => quantity
  | Raise _ => 0
  end.

Definition seller_entry `{Interpreter} (watch : gmap string PyVal) : Seller.Stock :=
  {| Seller.offer_id := code_of watch; Seller.stock := stock_value watch |}.

Definition seller_zero (offer_id : string) : Seller.Stock :=
  {| Seller.offer_id := offer_id; Seller.stock := 0 |}.

(** The Yandex Market shape of an Ozon stock entry. *)
Definition to_market (date warehouse_id : string) (entry : Seller.Stock)
    : Market.Stock :=
  {| Market.sku := Seller.offer_id entry;
     Market.warehouseId := warehouse_id;
     Market.items := [ {| Market.count := Seller.stock entry;
                          Market.type := "FIT";
                          Market.updatedAt := date |} ] |}.

Definition no_space (s : string) : Prop :=
  Forall (λ c, is_space c = false) (chars s).

(** The value read from the digits of [d], most significant first. *)
Fixpoint uint_val (d : Decimal.uint) (acc : Z) : Z :=
  match d with
  | Decimal.Nil => acc
  | Decimal.D0 d => uint_val d (10 * acc)
  | Decimal.D1 d => uint_val d (10 * acc + 1)
  | Decimal.D2 d => uint_val d (10 * acc + 2)
  | Decimal.D3 d => uint_val d (10 * acc + 3)
  | Decimal.D4 d => uint_val d (10 * acc + 4)
  | Decimal.D5 d => uint_val d (10 * acc + 5)
  | Decimal.D6 d => uint_val d (10 * acc + 6)
  | Decimal.D7 d => uint_val d (10 * acc + 7)
  | Decimal.D8 d => uint_val d (10 * acc + 8)
  | Decimal.D9 d => uint_val d (10 * acc + 9)
  end.

(** [count] consecutive pieces of [m] items of [lst]. *)
Definition pieces {A} (m : nat) (lst : list A) (count : nat) : list (list A) :=
  (λ k, take m (drop (k * m) lst)) <$> seq 0 count.

(** Number of steps of [range(0, len, n)] for a positive [n]. *)
Definition chunk_count (len n : Z) : nat :=
  Z.to_nat (if len <=? 0 then 0 else (len - 0 - 1) / n + 1).

(** The quantity cell of the row goes through the quantity rule. *)
Definition converts `{Interpreter} (watch : gmap string PyVal) : Prop :=
  is_ok (stock_of_count (count_of watch)) = true.

#[global] Instance converts_dec `{Interpreter} watch : Decision (converts watch).
Proof. unfold converts. apply _. Defined.

(** The results of [f] on the items of [l], or the first exception met. *)
Fixpoint res_all {A B} (f : A → res B) (l : list A) : res (list B) :=
  match l with
  | [] => Ok []
  | x :: l' =>
      match f x with
      | Ok y => res_map (y ::.) (res_all f l')
      | Raise e => Raise e
      end
  end.

Definition seller_price_entry (watch : gmap string PyVal) : res Seller.Price :=
  res_map (λ converted,
             {| Seller.auto_action_enabled := "UNKNOWN";
                Seller.currency_code := "RUB";
                Seller.price_offer_id := code_of watch;
                Seller.old_price := "0";
                Seller.price := converted |})
          (price_conversion_val (price_of watch)).

Definition market_price_entry `{Interpreter} (watch : gmap string PyVal) : res Market.Price :=
  match price_conversion_val (price_of watch) with
  | Ok converted =>
      res_map (λ amount,
                 {| Market.id := code_of watch;
                    Market.price := {| Market.value := amount;
                                       Market.currencyId := "RUR" |} |})
              (int_of_text converted)
  | Raise e => Raise e
  end.

(** Two calls in a row on the same store. *)
Definition twice {St A} (call : M St A) : M St (A * A) :=
  first <- call ;;
  second <- call ;;
  ret (first, second).

(** A call on the first, or on the second, of two list objects. *)
Definition on_first {St A} (call : M St A) : M (St * St) A :=
  λ '(one, other), let '(one', r) := call one in ((one', other), r).

Definition on_second {St A} (call : M St A) : M (St * St) A :=
  λ '(one, other), let '(other', r) := call other in ((one, other'), r).

(** Two calls in a row, each on a list object of its own. *)
Definition apart {St A} (call again : M St A) : M (St * St) (A * A) :=
  first <- on_first call ;;
  second <- on_second again ;;
  ret (first, second).

(** A market entry without the clock reading of its items. *)
Definition untimed (entry : Market.Stock) : string * string * list (Z * string) :=
  (Market.sku entry, Market.warehouseId entry,
   (λ item, (Market.count item, Market.type item)) <$> Market.items entry).

Definition is_stocks_request (q : Seller.request) : Prop :=
  match q with
  | Seller.StocksRequest _ => True
  | Seller.PricesRequest _ => False
  end.

(** A price text with no ASCII digit before its first dot. *)
Definition digitless_before_dot (text : string) : Prop :=
  ∃ pre,
    (dot ∉ chars pre) ∧
    (text = pre ∨ ∃ post, text = pre +:+ String "." post) ∧
    Forall (λ c, is_digit c = false) (chars pre).

(** The price cell of the row is a text: it has a [split]. *)
Definition text_price (watch : gmap string PyVal) : Prop :=
  ∃ text, price_of watch = PyStr text.

(** The price cell of the row is a text with an ASCII digit before its
    first dot: [price_conversion] leaves a text that is not empty. *)
Definition digit_price (watch : gmap string PyVal) : Prop :=
  ∃ text digits,
    price_of watch = PyStr text ∧
    price_conversion text = Ok digits ∧
    digits ≠ EmptyString.

(** ** The orchestration around the passes

    The paging loops may run for ever, so they take [fuel]: the number of
    requests they are allowed; [None] says the loop was still running when
    the fuel ran out.  A listing service is a function of the rank of the
    call and of the argument sent, which covers a service with a state of
    its own.  Of a listed product only its offer identifier is kept. *)

Module SellerSync.

Record Page : Type := { items : list string; total : Z; last_id : string }.

(** [get_offer_ids]: the [while True] loop over [get_product_list]. *)
Fixpoint offer_ids_loop (fuel : nat) (get_product_list : nat → string → res Page)
    (calls : nat) (last_id : string) (product_list : list string)
    : option (res (list string)) :=
  match fuel with
  | O => None
  | S fuel' =>
      match get_product_list calls last_id with
      | Raise e => Some (Raise e)
      | Ok some_prod =>
          let product_list := product_list ++ items some_prod in
          if total some_prod =? Z.of_nat (length product_list)
          then Some (Ok product_list)
          else offer_ids_loop fuel' get_product_list (S calls)
                 (SellerSync.last_id some_prod) product_list
      end
  end.

Definition get_offer_ids (fuel : nat) (get_product_list : nat → string → res Page)
    : option (res (list string)) :=
  offer_ids_loop fuel get_product_list 0 EmptyString [].

(** The two [upload_*] coroutines, run to their end from the store that
    holds the list just fetched. *)
Definition upload_prices (network : Seller.request → res unit)
    (watch_remnants : list (gmap string PyVal))
    : M (list string * list Seller.request) (list Seller.Price) :=
  prices <- Seller.on_offer_ids (Seller.create_prices watch_remnants) ;;
  price_batches <- lift (divide prices 1000) ;;
  _ <- Seller.for_each
         (λ some_price, Seller.send network (Seller.PricesRequest some_price))
         price_batches ;;
  ret prices.

Definition upload_stocks `{Interpreter} (network : Seller.request → res unit)
    (watch_remnants : list (gmap string PyVal))
    : M (list string * list Seller.request) (list Seller.Stock * list Seller.Stock) :=
  stocks <- Seller.on_offer_ids (Seller.create_stocks watch_remnants) ;;
  stock_batches <- lift (divide stocks 100) ;;
  _ <- Seller.for_each
         (λ some_stock, Seller.send network (Seller.StocksRequest some_stock))
         stock_batches ;;
  let not_empty := filter (λ stock, Seller.stock stock ≠ 0) stocks in
  ret (not_empty, stocks).

End SellerSync.

Module MarketSync.

Record Page : Type := {
  offerMappingEntries : list string;
  nextPageToken : option string }.

(** [not page] for a token that is absent or a text. *)
Definition falsy (page : option string) : bool :=
  match page with
  | Some (String _ _) => false
  | Some EmptyString | None => true
  end.

(** [get_offer_ids]: the [while True] loop over [get_product_list]. *)
Fixpoint offer_ids_loop (fuel : nat) (get_product_list : nat → option string → res Page)
    (calls : nat) (page : option string) (product_list : list string)
    : option (res (list string)) :=
  match fuel with
  | O => None
  | S fuel' =>
      match get_product_list calls page with
      | Raise e => Some (Raise e)
      | Ok some_prod =>
          let product_list := product_list ++ offerMappingEntries some_prod in
          let page := nextPageToken some_prod in
          if falsy page then Some (Ok product_list)
          else offer_ids_loop fuel' get_product_list (S calls) page product_list
      end
  end.

Definition get_offer_ids (fuel : nat) (get_product_list : nat → option string → res Page)
    : option (res (list string)) :=
  offer_ids_loop fuel get_product_list 0 (Some EmptyString) [].

Inductive request : Type :=
  | ListOffers (campaign_id : string)
  | StocksRequest (campaign_id : string) (batch : list Market.Stock)
  | PricesRequest (campaign_id : string) (batch : list Market.Price).

Definition campaign_of (q : request) : string :=
  match q with
  | ListOffers campaign_id
  | StocksRequest campaign_id _
  | PricesRequest campaign_id _ => campaign_id
  end.

Definition is_prices_request (q : request) : Prop :=
  match q with
  | PricesRequest _ _ => True
  | _ => False
  end.

Section Run.
Variable listing : string → res (list string).
Variable network : request → res unit.

(** [get_offer_ids(campaign_id, market_token)], once it has returned. *)
Definition fetch (campaign_id : string) : M (list request) (list string) :=
  λ sent, (sent ++ [ListOffers campaign_id], listing campaign_id).

Definition send (q : request) : M (list request) unit :=
  λ sent, (sent ++ [q], network q).

(** A pass run on a list object that nothing else refers to. *)
Definition on_own_list {A} (offer_ids : list string) (pass : M (list string) A)
    : M (list request) A :=
  λ sent, (sent, snd (pass offer_ids)).

(** [stock.get("items")[0].get("count") != 0] *)
Definition has_count (stock : Market.Stock) : res bool :=
  res_map (λ item, negb (Market.count item =? 0)) (first_item (Market.items stock)).

Fixpoint res_filter {A} (keep : A → res bool) (l : list A) : res (list A) :=
  match l with
  | [] => Ok []
  | x :: l' =>
      match keep x with
      | Ok b => res_map (λ kept, if b then x :: kept else kept) (res_filter keep l')
      | Raise e => Raise e
      end
  end.

Definition upload_prices `{Interpreter} (watch_remnants : list (gmap string PyVal))
    (campaign_id : string) : M (list request) (list Market.Price) :=
  offer_ids <- fetch campaign_id ;;
  prices <- on_own_list offer_ids (Market.create_prices watch_remnants) ;;
  price_batches <- lift (divide prices 500) ;;
  _ <- Seller.for_each (λ some_prices, send (PricesRequest campaign_id some_prices))
         price_batches ;;
  ret prices.

Definition upload_stocks `{Interpreter} (date : string) (watch_remnants : list (gmap string PyVal))
    (campaign_id warehouse_id : string)
    : M (list request) (list Market.Stock * list Market.Stock) :=
  offer_ids <- fetch campaign_id ;;
  stocks <- on_own_list offer_ids
              (Market.create_stocks date watch_remnants warehouse_id) ;;
  stock_batches <- lift (divide stocks 2000) ;;
  _ <- Seller.for_each (λ some_stock, send (StocksRequest campaign_id some_stock))
         stock_batches ;;
  not_empty <- lift (res_filter has_count stocks) ;;
  ret (not_empty, stocks).

(** The [try] block of [main].  [upload_prices] is a coroutine function: the
    call builds the coroutine and [main], which is not a coroutine, never
    awaits it, so its body is not run. *)
Definition main_try `{Interpreter} (date_fbs date_dbs : string)
    (watch_remnants : list (gmap string PyVal))
    (campaign_fbs_id campaign_dbs_id warehouse_fbs_id warehouse_dbs_id : string)
    : M (list request) unit :=
  offer_ids <- fetch campaign_fbs_id ;;
  stocks <- on_own_list offer_ids
              (Market.create_stocks date_fbs watch_remnants warehouse_fbs_id) ;;
  stock_batches <- lift (divide stocks 2000) ;;
  _ <- Seller.for_each (λ some_stock, send (StocksRequest campaign_fbs_id some_stock))
         stock_batches ;;
  let _coroutine := upload_prices watch_remnants campaign_fbs_id in
  offer_ids <- fetch campaign_dbs_id ;;
  stocks <- on_own_list offer_ids
              (Market.create_stocks date_dbs watch_remnants warehouse_dbs_id) ;;
  stock_batches <- lift (divide stocks 2000) ;;
  _ <- Seller.for_each (λ some_stock, send (StocksRequest campaign_dbs_id some_stock))
         stock_batches ;;
  let _coroutine := upload_prices watch_remnants campaign_dbs_id in
  ret tt.

(** [main]: every exception is caught and printed; what remains is the
    list of requests that went out. *)
Definition main `{Interpreter} (date_fbs date_dbs : string)
    (watch_remnants : list (gmap string PyVal))
    (campaign_fbs_id campaign_dbs_id warehouse_fbs_id warehouse_dbs_id : string)
    : list request :=
  fst (main_try date_fbs date_dbs watch_remnants
         campaign_fbs_id campaign_dbs_id warehouse_fbs_id warehouse_dbs_id []).
End Run.

End MarketSync.

(** *** Vocabulary for the listings *)

(** [pages] are the answers to the calls number [calls], [calls + 1], ...,
    each call sending the [last_id] of the page before. *)
Fixpoint seller_pages_served (get_product_list : nat → string → res SellerSync.Page)
    (calls : nat) (last_id : string) (pages : list SellerSync.Page) : Prop :=
  match pages with
  | [] => True
  | page :: pages' =>
      get_product_list calls last_id = Ok page ∧
      seller_pages_served get_product_list (S calls) (SellerSync.last_id page) pages'
  end.

(** The announced total equals the number of products received so far at
    the last of [pages] and at none before. *)
Fixpoint seller_total_reached (received : nat) (pages : list SellerSync.Page) : Prop :=
  match pages with
  | [] => False
  | page :: pages' =>
      let received := (received + length (SellerSync.items page))%nat in
      match pages' with
      | [] => SellerSync.total page = Z.of_nat received
      | _ => SellerSync.total page ≠ Z.of_nat received ∧
             seller_total_reached received pages'
      end
  end.

Fixpoint market_pages_served (get_product_list : nat → option string → res MarketSync.Page)
    (calls : nat) (page : option string) (pages : list MarketSync.Page) : Prop :=
  match pages with
  | [] => True
  | answer :: pages' =>
      get_product_list calls page = Ok answer ∧
      market_pages_served get_product_list (S calls)
        (MarketSync.nextPageToken answer) pages'
  end.

(** Only the last of [pages] carries no continuation token. *)
Fixpoint market_last_page (pages : list MarketSync.Page) : Prop :=
  match pages with
  | [] => False
  | answer :: pages' =>
      match pages' with
      | [] => MarketSync.falsy (MarketSync.nextPageToken answer) = true
      | _ => MarketSync.falsy (MarketSync.nextPageToken answer) = false ∧
             market_last_page pages'
      end
  end.

(** None of [pages] announces a total equal to the number of products
    received so far. *)
Fixpoint seller_total_missed (received : nat) (pages : list SellerSync.Page) : Prop :=
  match pages with
  | [] => True
  | page :: pages' =>
      let received := (received + length (SellerSync.items page))%nat in
      SellerSync.total page ≠ Z.of_nat received ∧ seller_total_missed received pages'
  end.

(** The argument of the call that follows [pages]. *)
Definition seller_next_last_id (last_id : string) (pages : list SellerSync.Page)
    : string :=
  foldl (λ _ page, SellerSync.last_id page) last_id pages.

Definition market_next_page (page : option string) (pages : list MarketSync.Page)
    : option string :=
  foldl (λ _ answer, MarketSync.nextPageToken answer) page pages.

(** *** Vocabulary for the runs *)

(** The first four statements of each half of [market.main]: listing, stock
    pass, batching, sending. *)
Definition market_stock_phase `{Interpreter} (listing : string → res (list string))
    (network : MarketSync.request → res unit) (date : string)
    (watch_remnants : list (gmap string PyVal)) (campaign_id warehouse_id : string)
    : M (list MarketSync.request) unit :=
  offer_ids <- MarketSync.fetch listing campaign_id ;;
  stocks <- MarketSync.on_own_list offer_ids
              (Market.create_stocks date watch_remnants warehouse_id) ;;
  stock_batches <- lift (divide stocks 2000) ;;
  Seller.for_each
    (λ some_stock, MarketSync.send network (MarketSync.StocksRequest campaign_id some_stock))
    stock_batches.

(** What sending [batches] one after the other leaves: all of them sent and
    answered, or the batches up to the first one that raised. *)
Definition sent_all {A Q} (network : Q → res unit) (wrap : list A → Q)
    (batches : list (list A)) (sent : list Q) (r : res unit) : Prop :=
  Forall (λ batch, network (wrap batch) = Ok tt) batches ∧
  sent = wrap <$> batches ∧ r = Ok tt.

Definition sent_until_failure {A Q} (network : Q → res unit) (wrap : list A → Q)
    (batches : list (list A)) (sent : list Q) (r : res unit) : Prop :=
  ∃ before batch after e,
    batches = before ++ batch :: after ∧
    Forall (λ b, network (wrap b) = Ok tt) before ∧
    network (wrap batch) = Raise e ∧
    sent = wrap <$> (before ++ [batch]) ∧ r = Raise e.


(** * Properties *)

Section Properties.
Context `{interpreter : Interpreter}.

(** ** Decimal texts *)

Lemma lstrip_no_space s : no_space s → lstrip s = s.
Proof.
  destruct s as [|c s]; [done|].
  intros H. apply Forall_cons in H as [Hc _]. simpl. by rewrite Hc.
Qed.

Lemma rstrip_no_space s : no_space s → rstrip s = s.
Proof.
  induction s as [|c s IH]; [done|].
  intros H. apply Forall_cons in H as [Hc Hs]. simpl.
  rewrite (IH Hs), Hc. by destruct s.
Qed.

Lemma strip_no_space s : no_space s → strip s = s.
Proof.
  intros H. unfold strip. by rewrite (lstrip_no_space s H), rstrip_no_space.
Qed.

Lemma int_digits_uint d acc :
  int_digits (NilEmpty.string_of_uint d) acc = Some (uint_val d acc).
Proof.
  revert acc. induction d; intros acc; simpl; [done|..];
    rewrite IHd; f_equal;
    match goal with
    | |- context [digit_val ?c] =>
        let v := eval vm_compute in (digit_val c) in change (digit_val c) with v
    end; f_equal; lia.
Qed.

Lemma int_magnitude_uint d :
  d ≠ Decimal.Nil →
  int_magnitude (NilEmpty.string_of_uint d) = Some (uint_val d 0).
Proof.
  destruct d; [done|..]; intros _; simpl; apply int_digits_uint.
Qed.

Lemma uint_val_acc d (acc : positive) :
  uint_val d (Z.pos acc) = Z.pos (Pos.of_uint_acc d acc).
Proof.
  revert acc. induction d; intros acc; simpl; [done|..];
    rewrite <- IHd; f_equal; lia.
Qed.

Lemma uint_val_of_uint d : uint_val d 0 = Z.of_N (Pos.of_uint d).
Proof.
  induction d; simpl; [done|apply IHd|..]; apply (uint_val_acc d).
Qed.

Lemma uint_no_space d : no_space (NilEmpty.string_of_uint d).
Proof.
  unfold no_space. induction d; simpl; [constructor|..]; by constructor.
Qed.

Lemma uint_ascii d : is_ascii (NilEmpty.string_of_uint d) = true.
Proof. induction d; simpl; [done|..]; exact IHd. Qed.

Lemma int_of_text_ascii (s : string) :
  is_ascii s = true →
  int_of_text s = match int_of_ascii_text s with
                  | Some n => Ok n
                  | None => Raise ValueError
                  end.
Proof. intros Hascii. unfold int_of_text. by rewrite Hascii. Qed.

Lemma int_of_text_pos p :
  int_of_text (NilEmpty.string_of_uint (Pos.to_uint p)) = Ok (Z.pos p).
Proof.
  pose proof (DecimalPos.Unsigned.to_uint_nonnil p) as Hnil.
  pose proof (DecimalPos.Unsigned.of_to p) as Hval.
  rewrite int_of_text_ascii by apply uint_ascii.
  unfold int_of_ascii_text. rewrite strip_no_space by apply uint_no_space.
  assert (int_magnitude (NilEmpty.string_of_uint (Pos.to_uint p)) = Some (Z.pos p)) as Hm.
  { rewrite int_magnitude_uint by done. by rewrite uint_val_of_uint, Hval. }
  destruct (Pos.to_uint p); [done|..]; simpl in *; by rewrite Hm.
Qed.

Lemma int_of_text_neg p :
  int_of_text (String "-" (NilEmpty.string_of_uint (Pos.to_uint p))) = Ok (Z.neg p).
Proof.
  pose proof (DecimalPos.Unsigned.to_uint_nonnil p) as Hnil.
  pose proof (DecimalPos.Unsigned.of_to p) as Hval.
  rewrite int_of_text_ascii by (simpl; apply uint_ascii).
  unfold int_of_ascii_text. rewrite strip_no_space.
  - rewrite int_magnitude_uint by done. by rewrite uint_val_of_uint, Hval.
  - constructor; [done|apply uint_no_space].
Qed.

(** [int(str(n)) = n] for every integer [n]. *)
Lemma int_of_text_str n : int_of_text (py_str (PyInt n)) = Ok n.
Proof.
  destruct n as [|p|p]; simpl.
  - done.
  - pose proof (DecimalPos.Unsigned.to_uint_nonnil p).
    replace (NilZero.string_of_uint (Pos.to_uint p))
      with (NilEmpty.string_of_uint (Pos.to_uint p)) by (by destruct (Pos.to_uint p)).
    apply int_of_text_pos.
  - pose proof (DecimalPos.Unsigned.to_uint_nonnil p).
    replace (NilZero.string_of_uint (Pos.to_uint p))
      with (NilEmpty.string_of_uint (Pos.to_uint p)) by (by destruct (Pos.to_uint p)).
    apply int_of_text_neg.
Qed.

(** ** Quantity tokens *)

(** C3, amended: the quantity is 100 when the text form of the token is
    [">10"], otherwise 0 when it is ["1"], otherwise [int] of the token
    itself.  For a text or an integer token that third value is the base-ten
    parse of the text form, so the spec's rule holds there; a boolean token
    gives 1 or 0 and [None] raises [TypeError]. *)
Theorem stock_of_count_rule :
  (∀ token,
     stock_of_count token =
       if String.eqb (py_str token) ">10" then Ok 100
       else if String.eqb (py_str token) "1" then Ok 0
       else py_int token) ∧
  (∀ s, stock_of_count (PyStr s) = quantityNormalize s) ∧
  (∀ n, stock_of_count (PyInt n) = quantityNormalize (py_str (PyInt n))) ∧
  (∀ b : bool, stock_of_count (PyBool b) = Ok (if b then 1 else 0)) ∧
  stock_of_count PyNone = Raise TypeError ∧
  stock_of_count (PyStr ">10") = Ok 100 ∧
  stock_of_count (PyStr "1") = Ok 0 ∧
  stock_of_count (PyStr "7") = Ok 7.
Proof.
  split_and!; try done.
  - intros n. unfold stock_of_count, quantityNormalize.
    destruct (String.eqb _ ">10"); [done|].
    destruct (String.eqb _ "1"); [done|].
    simpl py_int. symmetry. apply int_of_text_str.
  - by intros [].
Qed.

(** ** Prices *)

Lemma split_first (p : string) :
  ∃ pre pieces,
    split "." p = pre :: pieces ∧
    (dot ∉ chars pre) ∧
    (p = pre ∨ ∃ post, p = pre +:+ String "." post).
Proof.
  induction p as [|c p (pre & pieces & Hsplit & Hdot & Hshape)]; simpl.
  - exists EmptyString, []. split_and!; [done|apply not_elem_of_nil|by left].
  - destruct (Ascii.eqb_spec c ".") as [->|Hc].
    + exists EmptyString, (split "." p).
      split_and!; [done|apply not_elem_of_nil|right; by exists p].
    + rewrite Hsplit. exists (String c pre), pieces. split_and!; [done|..].
      * simpl. apply not_elem_of_cons. by split.
      * destruct Hshape as [->|[post ->]]; [by left|right; by exists post].
Qed.

Lemma sub_non_digits_filter (s : string) :
  chars (sub_non_digits s) = List.filter is_digit (chars s).
Proof.
  induction s as [|c s IH]; [done|]. simpl.
  destruct (is_digit c); simpl; by rewrite IH.
Qed.

Lemma is_digit_spec (c : ascii) :
  is_digit c = true ↔ c ∈ chars "0123456789".
Proof.
  split.
  - destruct c as [[] [] [] [] [] [] [] []]; try discriminate; intros _;
      unfold chars; simpl; repeat first [apply list_elem_of_here | apply list_elem_of_further].
  - unfold chars. simpl. intros H.
    repeat (apply elem_of_cons in H as [->|H]; [done|]).
    by apply elem_of_nil in H.
Qed.

Lemma split_before_dot pre :
  dot ∉ chars pre →
  split "." pre = [pre] ∧ ∀ post, split "." (pre +:+ String "." post) = pre :: split "." post.
Proof.
  induction pre as [|c pre IH]; intros Hdot; simpl; [done|].
  apply not_elem_of_cons in Hdot as [Hc Hdot].
  destruct (Ascii.eqb_spec c ".") as [->|_]; [done|].
  destruct (IH Hdot) as [-> Hpost]. split; [done|]. intros post. by rewrite Hpost.
Qed.

Lemma price_conversion_digitless text :
  digitless_before_dot text → price_conversion text = Ok EmptyString.
Proof.
  intros (pre & Hdot & Hshape & Hnone).
  assert (sub_non_digits pre = EmptyString) as Hsub.
  { clear Hdot Hshape. induction pre as [|c pre IH]; [done|].
    apply Forall_cons in Hnone as [Hc Hnone]. simpl. rewrite Hc. by apply IH. }
  destruct (split_before_dot pre Hdot) as [Hone Hpost].
  unfold price_conversion.
  destruct Hshape as [->|[post ->]]; rewrite ?Hone, ?Hpost; simpl; by rewrite Hsub.
Qed.

(** C5: [price_conversion p] is the text before the first dot of [p] with
    every character other than the ASCII digits removed; it never fails, a
    text without digits there gives the empty text, and the three
    documented values hold. *)
Theorem price_conversion_spec :
  (∀ p : string,
     ∃ pre digits,
       ((dot ∉ chars pre) ∧ (p = pre ∨ ∃ post, p = pre +:+ String "." post)) ∧
       price_conversion p = Ok digits ∧
       chars digits = List.filter is_digit (chars pre)) ∧
  (∀ c, is_digit c = true ↔ c ∈ chars "0123456789") ∧
  (∀ p, digitless_before_dot p → price_conversion p = Ok EmptyString) ∧
  price_conversion "5'990.00 руб." = Ok "5990" ∧
  price_conversion "1234.50" = Ok "1234" ∧
  price_conversion EmptyString = Ok EmptyString.
Proof.
  split_and!; try done.
  - intros p. destruct (split_first p) as (pre & pieces & Hsplit & Hdot & Hshape).
    exists pre, (sub_non_digits pre). split_and!; [done..| |].
    + unfold price_conversion. by rewrite Hsplit.
    + apply sub_non_digits_filter.
  - apply is_digit_spec.
  - apply price_conversion_digitless.
Qed.

(** ** The batcher *)

Section Divide.
Context {A : Type}.
Implicit Types (lst : list A) (n : Z) (m k : nat).

Lemma divide_steps_run indices n lst :
  divide_steps indices n lst = (lst, Ok ((λ i, py_slice lst i (i + n)) <$> indices)).
Proof.
  induction indices as [|i indices IH]; [done|].
  simpl. unfold bind, get, ret. by rewrite IH.
Qed.

Lemma py_slice_chunk lst k n :
  0 < n →
  py_slice lst (0 + Z.of_nat k * n) (0 + Z.of_nat k * n + n)
  = take (Z.to_nat n) (drop (k * Z.to_nat n) lst).
Proof.
  intros Hn.
  assert (∃ m, n = Z.of_nat m) as [m ->] by (exists (Z.to_nat n); lia).
  rewrite Nat2Z.id. unfold py_slice, slice_bound.
  destruct (Z.ltb_spec (0 + Z.of_nat k * Z.of_nat m) 0) as [?|_]; [lia|].
  destruct (Z.ltb_spec (0 + Z.of_nat k * Z.of_nat m + Z.of_nat m) 0) as [?|_]; [lia|].
  destruct (Z_le_gt_dec (Z.of_nat k * Z.of_nat m + Z.of_nat m) (Z.of_nat (length lst)))
    as [Hfull|Hshort].
  - rewrite !Z.min_l by lia. f_equal; [lia|f_equal; lia].
  - destruct (Z_le_gt_dec (Z.of_nat k * Z.of_nat m) (Z.of_nat (length lst)))
      as [Hin|Hout].
    + rewrite (Z.min_l (0 + Z.of_nat k * Z.of_nat m)) by lia.
      rewrite Z.min_r by lia.
      replace (Z.to_nat (0 + Z.of_nat k * Z.of_nat m)) with (k * m)%nat by lia.
      rewrite !take_ge; [done|rewrite length_drop; lia..].
    + rewrite !Z.min_r by lia.
      rewrite Z.sub_diag. simpl take.
      rewrite (drop_ge lst (k * m)) by lia. by rewrite take_nil.
Qed.

Lemma pieces_succ m lst count :
  pieces m lst (S count) = take m lst :: pieces m (drop m lst) count.
Proof.
  unfold pieces. simpl. f_equal.
  rewrite <- fmap_S_seq, <- list_fmap_compose.
  apply list_fmap_ext. intros _ k _. simpl.
  rewrite drop_drop. by rewrite (Nat.add_comm m).
Qed.

Lemma concat_pieces m count : ∀ lst,
  (length lst ≤ count * m)%nat → concat (pieces m lst count) = lst.
Proof.
  induction count as [|count IH]; intros lst Hlen.
  - destruct lst; [done|simpl in Hlen; lia].
  - rewrite pieces_succ. simpl. rewrite IH, take_drop; [done|].
    rewrite length_drop. lia.
Qed.

Lemma pieces_lookup m lst count k chunk :
  pieces m lst count !! k = Some chunk →
  (k < count)%nat ∧ chunk = take m (drop (k * m) lst).
Proof.
  unfold pieces. rewrite list_lookup_fmap.
  intros H. apply fmap_Some in H as (j & Hj & ->).
  apply lookup_seq in Hj as [-> ?]. done.
Qed.

Lemma divide_gen_pieces lst n :
  0 < n →
  divide_gen n lst
  = (lst, Ok (pieces (Z.to_nat n) lst (chunk_count (Z.of_nat (length lst)) n))).
Proof.
  intros Hn. unfold divide_gen, bind, get, lift, py_range.
  destruct (Z.eqb_spec n 0) as [?|_]; [lia|].
  destruct (Z.ltb_spec 0 n) as [_|?]; [|lia].
  rewrite divide_steps_run. do 2 f_equal.
  rewrite <- list_fmap_compose. unfold pieces, chunk_count.
  apply list_fmap_ext. intros _ k _. simpl. by apply py_slice_chunk.
Qed.

Lemma chunk_count_bounds (len : nat) n :
  0 < n →
  let count := chunk_count (Z.of_nat len) n in
  (len ≤ count * Z.to_nat n)%nat ∧
  (len = 0%nat → count = 0%nat) ∧
  (0 < len → (count - 1) * Z.to_nat n < len)%nat.
Proof.
  intros Hn. unfold chunk_count.
  destruct (Z.leb_spec (Z.of_nat len) 0) as [Hz|Hpos]; simpl.
  - split_and!; lia.
  - pose proof (Z.div_mod (Z.of_nat len - 0 - 1) n ltac:(lia)) as Hdiv.
    pose proof (Z.mod_pos_bound (Z.of_nat len - 0 - 1) n Hn) as Hmod.
    assert (0 ≤ (Z.of_nat len - 0 - 1) / n) as Hq by (apply Z.div_pos; lia).
    split_and!; [nia|lia|nia].
Qed.
End Divide.

(** C7: for a positive [n], [list(divide(lst, n))] returns contiguous
    sub-lists in the original order whose concatenation is [lst]; every chunk
    but the last has exactly [n] items and the last has between 1 and [n];
    the empty list gives no chunk; the list object is left as it was. *)
Theorem divide_spec {A} (lst : list A) (n : Z) :
  0 < n →
  ∃ chunks,
    divide_gen n lst = (lst, Ok chunks) ∧
    divide lst n = Ok chunks ∧
    concat chunks = lst ∧
    (∀ k chunk, chunks !! k = Some chunk →
       chunk = take (Z.to_nat n) (drop (k * Z.to_nat n) lst)) ∧
    (∀ k chunk, chunks !! k = Some chunk → (S k < length chunks)%nat →
       Z.of_nat (length chunk) = n) ∧
    (∀ chunk, last chunks = Some chunk → 0 < Z.of_nat (length chunk) ≤ n) ∧
    (lst = [] → chunks = []).
Proof.
  intros Hn.
  pose proof (divide_gen_pieces lst n Hn) as Hrun.
  destruct (chunk_count_bounds (length lst) n Hn) as (Hcover & Hempty & Hlast).
  set (count := chunk_count (Z.of_nat (length lst)) n) in *.
  set (m := Z.to_nat n) in *.
  assert (length (pieces m lst count) = count) as Hcount.
  { unfold pieces. by rewrite length_fmap, length_seq. }
  exists (pieces m lst count). split_and!.
  - done.
  - unfold divide. by rewrite Hrun.
  - by apply concat_pieces.
  - intros k chunk Hk. by apply pieces_lookup in Hk as [_ ->].
  - intros k chunk Hk Hnext. apply pieces_lookup in Hk as [_ ->].
    rewrite Hcount in Hnext. rewrite length_take, length_drop.
    assert (S k * m ≤ (count - 1) * m)%nat by (apply Nat.mul_le_mono_r; lia).
    lia.
  - intros chunk Hchunk. rewrite last_lookup, Hcount in Hchunk.
    apply pieces_lookup in Hchunk as [Hlt ->].
    rewrite length_take, length_drop.
    replace (Init.Nat.pred count) with (count - 1)%nat by lia. lia.
  - intros ->. simpl in Hempty. by rewrite Hempty.
Qed.


(** ** Stock reconciliation: the loop *)

Lemma foldl_snoc {A B} (f : B → A) (acc : list A) (l : list B) :
  foldl (λ out x, out ++ [f x]) acc l = acc ++ (f <$> l).
Proof.
  revert acc. induction l as [|x l IH]; intros acc; simpl.
  - by rewrite app_nil_r.
  - by rewrite IH, <- app_assoc.
Qed.

Lemma list_remove_drop_first x l :
  x ∈ l → list_remove x l = Some (drop_first x l).
Proof.
  induction l as [|y l IH]; intros Hin; [by apply elem_of_nil in Hin|].
  simpl. destruct (decide (y = x)) as [->|Hne]; [done|].
  apply elem_of_cons in Hin as [->|Hin]; [done|]. by rewrite IH.
Qed.

Lemma drop_first_sublist x l : sublist (drop_first x l) l.
Proof.
  induction l as [|y l IH]; simpl; [done|].
  destruct (decide (y = x)); [by apply sublist_cons|by apply sublist_skip].
Qed.

Lemma drop_first_perm x l : x ∈ l → l ≡ₚ x :: drop_first x l.
Proof.
  induction l as [|y l IH]; intros Hin; [by apply elem_of_nil in Hin|].
  simpl. destruct (decide (y = x)) as [->|Hne]; [done|].
  apply elem_of_cons in Hin as [->|Hin]; [done|].
  rewrite (IH Hin) at 1. apply Permutation_swap.
Qed.

Lemma drop_first_other x y l : x ∈ l → y ≠ x → x ∈ drop_first y l.
Proof.
  induction l as [|z l IH]; intros Hin Hne; [done|]. simpl.
  destruct (decide (z = y)) as [->|Hz].
  - apply elem_of_cons in Hin as [->|Hin]; done.
  - apply elem_of_cons in Hin as [->|Hin]; [left|right; by apply IH].
Qed.

Lemma filter_all {A} (P : A → Prop) `{!∀ x, Decision (P x)} (l : list A) :
  Forall P l → filter P l = l.
Proof.
  induction 1 as [|x l Hx _ IH]; [done|]. by rewrite filter_cons_True, IH.
Qed.

Lemma drop_first_filter x l :
  NoDup l → drop_first x l = filter (λ y, y ≠ x) l.
Proof.
  induction 1 as [|y l Hy Hl IH]; simpl; [done|].
  destruct (decide (y = x)) as [->|Hne].
  - rewrite filter_cons_False by (intros ?; done).
    symmetry. apply filter_all. apply Forall_forall.
    intros z Hz ->. done.
  - rewrite filter_cons_True by done. by rewrite IH.
Qed.

Lemma seller_stocks_loop_ok rows : ∀ stocks universe,
  Forall converts (matched rows universe) →
  Seller.stocks_loop rows stocks universe
  = (unmatched rows universe, Ok (stocks ++ (seller_entry <$> matched rows universe))).
Proof.
  induction rows as [|watch rows IH]; intros stocks universe Hok; simpl.
  { unfold ret. by rewrite app_nil_r. }
  simpl in Hok. unfold bind at 1, get. fold (code_of watch) in *.
  case_bool_decide as Hin; [|by apply IH].
  apply Forall_cons in Hok as [Hwatch Hok].
  unfold converts, count_of in Hwatch. unfold bind at 1. unfold lift.
  rewrite fmap_cons. unfold seller_entry at 1. unfold stock_value, count_of.
  destruct (stock_of_count _) as [quantity|]; [|done].
  unfold bind, remove. rewrite (list_remove_drop_first _ _ Hin).
  rewrite (IH _ _ Hok). by rewrite <- app_assoc.
Qed.

Lemma seller_create_stocks_ok rows universe :
  Forall converts (matched rows universe) →
  Seller.create_stocks rows universe
  = (unmatched rows universe,
     Ok ((seller_entry <$> matched rows universe)
         ++ (seller_zero <$> unmatched rows universe))).
Proof.
  intros Hok. unfold Seller.create_stocks, bind.
  rewrite (seller_stocks_loop_ok rows [] universe Hok).
  unfold get, ret. by rewrite foldl_snoc.
Qed.

Lemma seller_stocks_loop_fail rows : ∀ stocks universe,
  Exists (λ watch, ¬ converts watch) (matched rows universe) →
  ∃ remaining e, Seller.stocks_loop rows stocks universe = (remaining, Raise e) ∧
            (e = ValueError ∨ e = TypeError).
Proof.
  induction rows as [|watch rows IH]; intros stocks universe Hbad; simpl.
  { by apply Exists_nil in Hbad. }
  simpl in Hbad. unfold bind at 1, get. fold (code_of watch) in *.
  case_bool_decide as Hin; [|by apply IH].
  unfold bind at 1. unfold lift.
  destruct (stock_of_count (dict_get "Количество" watch)) as [quantity|e] eqn:Hq.
  - apply Exists_cons in Hbad as [Hwatch|Hbad].
    { exfalso. apply Hwatch. unfold converts, count_of. by rewrite Hq. }
    unfold bind, remove. rewrite (list_remove_drop_first _ _ Hin).
    by apply IH.
  - exists universe, e. split; [done|].
    unfold stock_of_count in Hq.
    destruct (String.eqb _ ">10"); [done|]. destruct (String.eqb _ "1"); [done|].
    destruct (dict_get "Количество" watch) as [|b|n|s]; simpl in Hq; try done.
    + right. congruence.
    + left. unfold int_of_text in Hq.
      repeat match type of Hq with context [match ?x with _ => _ end] => destruct x end;
        congruence.
Qed.

Lemma market_stocks_loop date warehouse_id rows : ∀ stocks universe,
  Market.stocks_loop date warehouse_id rows (to_market date warehouse_id <$> stocks) universe
  = (let '(remaining, r) := Seller.stocks_loop rows stocks universe in
     (remaining, res_map (fmap (to_market date warehouse_id)) r)).
Proof.
  induction rows as [|watch rows IH]; intros stocks universe; simpl; [done|].
  unfold bind, get, lift, remove. case_bool_decide as Hin; [|apply IH].
  destruct (stock_of_count (dict_get "Количество" watch)) as [quantity|e]; [|done].
  destruct (list_remove _ universe) as [remaining|]; [|done].
  rewrite <- IH. by rewrite fmap_app.
Qed.

Lemma market_create_stocks date warehouse_id rows universe :
  Market.create_stocks date rows warehouse_id universe
  = (let '(remaining, r) := Seller.create_stocks rows universe in
     (remaining, res_map (fmap (to_market date warehouse_id)) r)).
Proof.
  unfold Market.create_stocks, Seller.create_stocks, bind, get, ret.
  pose proof (market_stocks_loop date warehouse_id rows [] universe) as Hloop.
  simpl in Hloop. rewrite Hloop.
  destruct (Seller.stocks_loop rows [] universe) as [remaining [stocks|e]]; [|done].
  simpl. rewrite !foldl_snoc, fmap_app.
  by rewrite <- list_fmap_compose.
Qed.

(** ** Stock reconciliation: which rows match *)

Lemma matched_elem rows : ∀ universe watch,
  watch ∈ matched rows universe → watch ∈ rows ∧ code_of watch ∈ universe.
Proof.
  induction rows as [|w rows IH]; intros universe watch Hin; simpl in Hin.
  { by apply elem_of_nil in Hin. }
  case_bool_decide as Hw.
  - apply elem_of_cons in Hin as [->|Hin]; [split; [left|done]|].
    apply IH in Hin as [? Hcode]. split; [by right|].
    by apply (sublist_subseteq _ _ (drop_first_sublist _ _)) in Hcode.
  - apply IH in Hin as [? ?]. split; [by right|done].
Qed.

Lemma matched_sublist rows : ∀ universe, sublist (matched rows universe) rows.
Proof.
  induction rows as [|w rows IH]; intros universe; simpl; [done|].
  case_bool_decide; [by apply sublist_skip|by apply sublist_cons].
Qed.

Lemma unmatched_sublist rows : ∀ universe, sublist (unmatched rows universe) universe.
Proof.
  induction rows as [|w rows IH]; intros universe; simpl; [done|].
  case_bool_decide; [|done].
  etrans; [apply IH|apply drop_first_sublist].
Qed.

Lemma matched_unmatched_perm rows : ∀ universe,
  (code_of <$> matched rows universe) ++ unmatched rows universe ≡ₚ universe.
Proof.
  induction rows as [|w rows IH]; intros universe; simpl; [done|].
  case_bool_decide as Hw; [|done].
  rewrite fmap_cons. simpl. rewrite IH. symmetry. by apply drop_first_perm.
Qed.

Lemma filter_ext_in {A} (P Q : A → Prop) `{!∀ x, Decision (P x), !∀ x, Decision (Q x)}
    (l : list A) :
  (∀ x, x ∈ l → P x ↔ Q x) → filter P l = filter Q l.
Proof.
  induction l as [|x l IH]; intros Hext; [done|].
  rewrite !filter_cons.
  assert (filter P l = filter Q l) as -> by (apply IH; intros; apply Hext; by right).
  destruct (decide (P x)) as [HP|HP], (decide (Q x)) as [HQ|HQ]; try done.
  - exfalso. apply HQ, Hext; [left|done].
  - exfalso. apply HP, Hext; [left|done].
Qed.

Lemma drop_first_elem x y l : NoDup l → y ∈ drop_first x l ↔ y ∈ l ∧ y ≠ x.
Proof.
  intros Hl. rewrite drop_first_filter by done.
  rewrite list_elem_of_filter. tauto.
Qed.

Lemma drop_first_NoDup x l : NoDup l → NoDup (drop_first x l).
Proof. intros Hl. by apply (sublist_NoDup _ l), drop_first_sublist. Qed.

Lemma matched_first_rows rows : ∀ seen universe original : list string,
  NoDup universe →
  (∀ x, x ∈ universe ↔ x ∈ original ∧ x ∉ seen) →
  matched rows universe = filter (λ w, code_of w ∈ original) (first_rows seen rows).
Proof.
  induction rows as [|w rows IH]; intros seen universe original Hnd Hrel; simpl; [done|].
  case_bool_decide as Hw.
  - apply Hrel in Hw as Hw'. destruct Hw' as [Horig Hseen].
    rewrite bool_decide_eq_false_2 by done.
    rewrite filter_cons_True by done. f_equal.
    apply IH; [by apply drop_first_NoDup|].
    intros x. rewrite drop_first_elem by done. rewrite Hrel, not_elem_of_cons. tauto.
  - case_bool_decide as Hseen; [by apply IH|].
    assert (code_of w ∉ original) as Horig by (intros ?; apply Hw, Hrel; done).
    rewrite filter_cons_False by done.
    apply IH; [done|].
    intros x. rewrite Hrel, not_elem_of_cons.
    split; [|tauto]. intros [? ?]. split_and!; [done| |done]. by intros ->.
Qed.

Lemma unmatched_filter rows : ∀ universe : list string,
  NoDup universe →
  unmatched rows universe = filter (λ x, x ∉ code_of <$> rows) universe.
Proof.
  induction rows as [|w rows IH]; intros universe Hnd; simpl.
  { symmetry. apply filter_all, Forall_forall. intros x _. apply not_elem_of_nil. }
  case_bool_decide as Hw.
  - rewrite IH by by apply drop_first_NoDup.
    rewrite drop_first_filter by done. rewrite list_filter_filter.
    apply filter_ext_in. intros x _. rewrite not_elem_of_cons. tauto.
  - rewrite IH by done. apply filter_ext_in. intros x Hx.
    rewrite not_elem_of_cons. split; [|tauto]. intros ?. split; [|done].
    by intros ->.
Qed.

Lemma matched_converts rows universe :
  Forall (λ watch, code_of watch ∈ universe → converts watch) rows →
  Forall converts (matched rows universe).
Proof.
  rewrite !Forall_forall. intros Hrows watch Hin.
  apply matched_elem in Hin as [? ?]. by apply Hrows.
Qed.

(** ** Stock reconciliation: the result *)

Lemma offer_ids_entries (hits : list (gmap string PyVal)) :
  Seller.offer_id <$> (seller_entry <$> hits) = code_of <$> hits.
Proof. by rewrite <- list_fmap_compose. Qed.

Lemma offer_ids_zeros (ids : list string) :
  Seller.offer_id <$> (seller_zero <$> ids) = ids.
Proof. rewrite <- list_fmap_compose. exact (list_fmap_id ids). Qed.

(** C1, amended: whenever every supplier row that finds its code in the
    working list when the loop reaches it (for a universe without
    duplicates: the first row of the feed for each code of the universe)
    carries a convertible quantity, [create_stocks] (both marketplaces, any
    warehouse and clock reading) returns a list with one entry per member of
    the universe: its length is that of the universe, its identifiers are a
    rearrangement of the universe (hence without duplicates when the
    universe has none), and it consists of the matched rows in feed order
    followed by the unmatched identifiers with quantity 0 in universe
    order.  Rows that the loop skips need not convert. *)
Theorem create_stocks_spec (rows : list (gmap string PyVal)) (universe : list string) :
  Forall converts (matched rows universe) →
  ∃ out remaining hits,
    hits = matched rows universe ∧
    Seller.create_stocks rows universe = (remaining, Ok out) ∧
    (∀ date warehouse_id,
       Market.create_stocks date rows warehouse_id universe
       = (remaining, Ok (to_market date warehouse_id <$> out))) ∧
    length out = length universe ∧
    Seller.offer_id <$> out ≡ₚ universe ∧
    (∀ x, x ∈ Seller.offer_id <$> out ↔ x ∈ universe) ∧
    (NoDup universe → NoDup (Seller.offer_id <$> out)) ∧
    out = (seller_entry <$> hits) ++ (seller_zero <$> remaining) ∧
    sublist hits rows ∧
    sublist remaining universe ∧
    Forall (λ watch, code_of watch ∈ universe ∧
                     stock_of_count (count_of watch) = Ok (stock_value watch)) hits ∧
    (NoDup universe →
       hits = filter (λ watch, code_of watch ∈ universe) (first_rows [] rows) ∧
       remaining = filter (λ x, x ∉ code_of <$> rows) universe).
Proof.
  intros Hok.
  pose proof (seller_create_stocks_ok rows universe Hok) as Hrun.
  assert (Seller.offer_id <$>
            (seller_entry <$> matched rows universe)
            ++ (seller_zero <$> unmatched rows universe) ≡ₚ universe) as Hperm.
  { rewrite fmap_app, offer_ids_entries, offer_ids_zeros.
    apply matched_unmatched_perm. }
  exists ((seller_entry <$> matched rows universe)
          ++ (seller_zero <$> unmatched rows universe)),
         (unmatched rows universe), (matched rows universe).
  split_and!.
  - done.
  - done.
  - intros date warehouse_id. by rewrite market_create_stocks, Hrun.
  - rewrite <- (length_fmap Seller.offer_id). by rewrite Hperm.
  - done.
  - intros x. by rewrite Hperm.
  - intros Hnd. by rewrite Hperm.
  - done.
  - apply matched_sublist.
  - apply unmatched_sublist.
  - apply Forall_forall. intros watch Hin.
    rewrite Forall_forall in Hok. specialize (Hok watch Hin).
    apply matched_elem in Hin as [_ Hcode]. split; [done|].
    unfold converts in Hok. unfold stock_value.
    by destruct (stock_of_count (count_of watch)).
  - intros Hnd. split; [|by apply unmatched_filter].
    apply matched_first_rows; [done|].
    intros x. split; [intros ?; split; [done|apply not_elem_of_nil]|by intros [? _]].
Qed.


(** ** Price reconciliation: the loop *)

Lemma seller_prices_loop rows : ∀ prices (universe : list string),
  Seller.prices_loop rows prices universe
  = (universe,
     res_map (prices ++.)
       (res_all seller_price_entry (filter (λ watch, code_of watch ∈ universe) rows))).
Proof.
  induction rows as [|watch rows IH]; intros prices universe; simpl.
  { unfold ret. by rewrite app_nil_r. }
  unfold bind, get, lift. fold (code_of watch) (price_of watch).
  case_bool_decide as Hin.
  - rewrite filter_cons_True by done. simpl. unfold seller_price_entry at 1.
    destruct (price_conversion_val (price_of watch)) as [converted|e]; [|done].
    rewrite IH. simpl. f_equal.
    destruct (res_all _ _); simpl; [|done]. by rewrite <- app_assoc.
  - rewrite filter_cons_False by done. apply IH.
Qed.

Lemma market_prices_loop rows : ∀ prices (universe : list string),
  Market.prices_loop rows prices universe
  = (universe,
     res_map (prices ++.)
       (res_all market_price_entry (filter (λ watch, code_of watch ∈ universe) rows))).
Proof.
  induction rows as [|watch rows IH]; intros prices universe; simpl.
  { unfold ret. by rewrite app_nil_r. }
  unfold bind, get, lift. fold (code_of watch) (price_of watch).
  case_bool_decide as Hin.
  - rewrite filter_cons_True by done. simpl. unfold market_price_entry at 1.
    destruct (price_conversion_val (price_of watch)) as [converted|e]; [|done].
    destruct (int_of_text converted) as [amount|e]; [|done].
    rewrite IH. simpl. f_equal.
    destruct (res_all _ _); simpl; [|done]. by rewrite <- app_assoc.
  - rewrite filter_cons_False by done. apply IH.
Qed.

Lemma seller_create_prices_run rows (universe : list string) :
  Seller.create_prices rows universe
  = (universe,
     res_all seller_price_entry (filter (λ watch, code_of watch ∈ universe) rows)).
Proof.
  unfold Seller.create_prices. rewrite seller_prices_loop. f_equal.
  by destruct (res_all _ _).
Qed.

Lemma market_create_prices_run rows (universe : list string) :
  Market.create_prices rows universe
  = (universe,
     res_all market_price_entry (filter (λ watch, code_of watch ∈ universe) rows)).
Proof.
  unfold Market.create_prices. rewrite market_prices_loop. f_equal.
  by destruct (res_all _ _).
Qed.

(** ** Stock reconciliation: what a returned call implies *)

Lemma seller_create_stocks_fail rows universe :
  ¬ Forall converts (matched rows universe) →
  ∃ remaining e, Seller.create_stocks rows universe = (remaining, Raise e) ∧
                 (e = ValueError ∨ e = TypeError).
Proof.
  intros Hbad. apply not_Forall_Exists in Hbad; [|apply _].
  destruct (seller_stocks_loop_fail rows [] universe Hbad) as (remaining & e & Hrun & He).
  exists remaining, e. split; [|done].
  unfold Seller.create_stocks, bind. by rewrite Hrun.
Qed.

Lemma seller_create_stocks_inv rows universe remaining out :
  Seller.create_stocks rows universe = (remaining, Ok out) →
  Forall converts (matched rows universe) ∧
  remaining = unmatched rows universe ∧
  out = (seller_entry <$> matched rows universe)
        ++ (seller_zero <$> unmatched rows universe).
Proof.
  intros Hrun. destruct (decide (Forall converts (matched rows universe))) as [Hok|Hbad].
  - rewrite (seller_create_stocks_ok _ _ Hok) in Hrun. by simplify_eq.
  - apply seller_create_stocks_fail in Hbad as (? & ? & Hfail & _). congruence.
Qed.

Lemma unmatched_none rows (universe : list string) :
  (∀ watch, watch ∈ rows → code_of watch ∉ universe) →
  matched rows universe = [] ∧ unmatched rows universe = universe.
Proof.
  induction rows as [|w rows IH]; intros Hnone; simpl; [done|].
  rewrite bool_decide_eq_false_2 by (apply Hnone; left).
  apply IH. intros watch Hin. apply Hnone. by right.
Qed.

Lemma matched_nil rows : ∀ universe : list string,
  matched rows universe = [] → ∀ watch, watch ∈ rows → code_of watch ∉ universe.
Proof.
  induction rows as [|w rows IH]; intros universe Hnil watch Hin; simpl in Hnil.
  { by apply elem_of_nil in Hin. }
  case_bool_decide as Hw; [done|].
  apply elem_of_cons in Hin as [->|Hin]; [done|by apply IH].
Qed.

Lemma unmatched_same rows (universe : list string) :
  unmatched rows universe = universe ↔
  ∀ watch, watch ∈ rows → code_of watch ∉ universe.
Proof.
  split; [|apply unmatched_none].
  intros Hsame. apply matched_nil.
  pose proof (matched_unmatched_perm rows universe) as Hperm.
  apply Permutation_length in Hperm.
  rewrite length_app, length_fmap, Hsame in Hperm.
  apply length_zero_iff_nil. lia.
Qed.


(** ** The caller's list after reconciliation *)

(** C2, amended: [create_stocks] works in place on the caller's list.  When
    it returns, the list holds exactly the unmatched identifiers, in their
    original order; these are the identifiers emitted with quantity 0, and
    the list is unchanged only if no supplier row matched.
    [create_prices] leaves the list as it was. *)
Theorem create_stocks_in_place (rows : list (gmap string PyVal))
    (universe remaining : list string) (out : list Seller.Stock) :
  Seller.create_stocks rows universe = (remaining, Ok out) →
  (∀ date warehouse_id,
     Market.create_stocks date rows warehouse_id universe
     = (remaining, Ok (to_market date warehouse_id <$> out))) ∧
  sublist remaining universe ∧
  (∃ hits, out = (seller_entry <$> hits) ++ (seller_zero <$> remaining) ∧
           (code_of <$> hits) ++ remaining ≡ₚ universe) ∧
  (remaining = universe ↔ ∀ watch, watch ∈ rows → code_of watch ∉ universe) ∧
  (NoDup universe → remaining = filter (λ x, x ∉ code_of <$> rows) universe) ∧
  (∀ ids : list string,
     fst (Seller.create_prices rows ids) = ids ∧
     fst (Market.create_prices rows ids) = ids).
Proof.
  intros Hrun. pose proof Hrun as Hinv.
  apply seller_create_stocks_inv in Hinv as (Hok & -> & ->).
  split_and!.
  - intros date warehouse_id. by rewrite market_create_stocks, Hrun.
  - apply unmatched_sublist.
  - exists (matched rows universe). split; [done|apply matched_unmatched_perm].
  - apply unmatched_same.
  - apply unmatched_filter.
  - intros ids. by rewrite seller_create_prices_run, market_create_prices_run.
Qed.

(** ** Calling twice *)

Lemma twice_run {St A} (call : M St A) (st : St) :
  twice call st
  = match call st with
    | (st', Ok first) =>
        match call st' with
        | (st'', Ok second) => (st'', Ok (first, second))
        | (st'', Raise e) => (st'', Raise e)
        end
    | (st', Raise e) => (st', Raise e)
    end.
Proof.
  unfold twice, bind, ret. destruct (call st) as [st' [first|e]]; [|done].
  by destruct (call st') as [st'' [second|e]].
Qed.

Lemma unmatched_disjoint rows (universe : list string) :
  NoDup universe →
  ∀ watch, watch ∈ rows → code_of watch ∉ unmatched rows universe.
Proof.
  intros Hnd watch Hin. rewrite unmatched_filter by done.
  rewrite list_elem_of_filter. intros [Hout _]. apply Hout.
  by apply list_elem_of_fmap_2.
Qed.

Lemma apart_run {St A} (call again : M St A) (one other : St) :
  apart call again (one, other)
  = match call one with
    | (one', Ok first) =>
        match again other with
        | (other', Ok second) => ((one', other'), Ok (first, second))
        | (other', Raise e) => ((one', other'), Raise e)
        end
    | (one', Raise e) => ((one', other), Raise e)
    end.
Proof.
  unfold apart, bind, ret, on_first, on_second.
  destruct (call one) as [one' [first|e]]; [|done].
  by destruct (again other) as [other' [second|e]].
Qed.

Lemma untimed_to_market date warehouse_id (out : list Seller.Stock) :
  untimed <$> (to_market date warehouse_id <$> out)
  = (λ entry, (Seller.offer_id entry, warehouse_id, [(Seller.stock entry, "FIT")])) <$> out.
Proof. rewrite <- list_fmap_compose. by apply list_fmap_ext. Qed.

(** C8: two calls on identical inputs return identical lists, clock
    readings aside.  A second call of [create_prices] with the same
    arguments, even the same list object, returns the list of the first.
    A second call of [create_stocks] on a list equal to the one the first
    call was given returns the list of the first, and leaves its list as
    the first call left its own; for [market.create_stocks] the two lists
    are the same up to the clock reading in [updatedAt], and equal once
    that field is put aside.  When the first call raises, there is no
    second call. *)
Theorem reconcile_twice (rows : list (gmap string PyVal)) (universe : list string) :
  twice (Seller.create_prices rows) universe
    = (universe, res_map (λ prices, (prices, prices))
                   (snd (Seller.create_prices rows universe))) ∧
  twice (Market.create_prices rows) universe
    = (universe, res_map (λ prices, (prices, prices))
                   (snd (Market.create_prices rows universe))) ∧
  apart (Seller.create_stocks rows) (Seller.create_stocks rows) (universe, universe)
    = match Seller.create_stocks rows universe with
      | (remaining, Ok out) => ((remaining, remaining), Ok (out, out))
      | (remaining, Raise e) => ((remaining, universe), Raise e)
      end ∧
  (∀ date again warehouse_id,
     apart (Market.create_stocks date rows warehouse_id)
           (Market.create_stocks again rows warehouse_id) (universe, universe)
     = match Seller.create_stocks rows universe with
       | (remaining, Ok out) =>
           ((remaining, remaining),
            Ok (to_market date warehouse_id <$> out,
                to_market again warehouse_id <$> out))
       | (remaining, Raise e) => ((remaining, universe), Raise e)
       end) ∧
  (∀ date again warehouse_id,
     fst (Market.create_stocks date rows warehouse_id universe)
       = fst (Market.create_stocks again rows warehouse_id universe) ∧
     res_map (fmap untimed) (snd (Market.create_stocks date rows warehouse_id universe))
       = res_map (fmap untimed)
           (snd (Market.create_stocks again rows warehouse_id universe))).
Proof.
  split_and!.
  - rewrite twice_run, !seller_create_prices_run. simpl.
    by destruct (res_all _ _).
  - rewrite twice_run, !market_create_prices_run. simpl.
    by destruct (res_all _ _).
  - rewrite apart_run.
    by destruct (Seller.create_stocks rows universe) as [remaining [out|e]].
  - intros date again warehouse_id. rewrite apart_run, !market_create_stocks.
    by destruct (Seller.create_stocks rows universe) as [remaining [out|e]].
  - intros date again warehouse_id. rewrite !market_create_stocks.
    destruct (Seller.create_stocks rows universe) as [remaining [out|e]];
      simpl; [|done].
    by rewrite !untimed_to_market.
Qed.


(** ** A malformed quantity *)

Lemma not_converts token_row :
  py_str (count_of token_row) ≠ ">10" →
  py_str (count_of token_row) ≠ "1" →
  is_ok (py_int (count_of token_row)) = false →
  ¬ converts token_row.
Proof.
  intros Hten Hone Hint. unfold converts, stock_of_count.
  apply String.eqb_neq in Hten, Hone. rewrite Hten, Hone, Hint. done.
Qed.

Lemma matched_reaches before : ∀ (universe : list string) watch after,
  code_of watch ∈ universe →
  code_of watch ∉ code_of <$> before →
  watch ∈ matched (before ++ watch :: after) universe.
Proof.
  induction before as [|b before IH]; intros universe watch after Hin Hfirst; simpl.
  - rewrite bool_decide_eq_true_2 by done. left.
  - rewrite fmap_cons in Hfirst. apply not_elem_of_cons in Hfirst as [Hne Hfirst].
    case_bool_decide as Hb; [right|]; apply IH; try done.
    by apply drop_first_other.
Qed.

Lemma seller_create_stocks_raise rows universe watch :
  watch ∈ matched rows universe → ¬ converts watch →
  ∃ remaining e, Seller.create_stocks rows universe = (remaining, Raise e) ∧
                 (e = ValueError ∨ e = TypeError).
Proof.
  intros Hin Hbad. apply seller_create_stocks_fail.
  rewrite Forall_forall. intros Hall. by apply Hbad, Hall.
Qed.

(** C4, amended: if a supplier row that finds its code in the working list
    when the loop reaches it (in particular the first row of the feed with
    its code, when that code is in the offer universe) carries a quantity
    token whose text form is neither [">10"] nor ["1"] and that [int] cannot
    convert, then [create_stocks] raises ([ValueError], or [TypeError] for
    [None]) and returns no list, whatever the other rows are. *)
Theorem create_stocks_bad_quantity (rows : list (gmap string PyVal))
    (watch : gmap string PyVal) (universe : list string) :
  (watch ∈ matched rows universe ∨
   ∃ before after,
     rows = before ++ watch :: after ∧
     code_of watch ∈ universe ∧
     (code_of watch ∉ code_of <$> before)) →
  py_str (count_of watch) ≠ ">10" →
  py_str (count_of watch) ≠ "1" →
  is_ok (py_int (count_of watch)) = false →
  (∃ remaining e,
     Seller.create_stocks rows universe = (remaining, Raise e) ∧
     (e = ValueError ∨ e = TypeError)) ∧
  (∀ date warehouse_id, ∃ remaining e,
     Market.create_stocks date rows warehouse_id universe = (remaining, Raise e) ∧
     (e = ValueError ∨ e = TypeError)).
Proof.
  intros Hreached Hten Hone Hint.
  pose proof (not_converts watch Hten Hone Hint) as Hbad.
  assert (watch ∈ matched rows universe) as Hhit.
  { destruct Hreached as [?|(before & after & -> & Hin & Hfirst)]; [done|].
    by apply matched_reaches. }
  destruct (seller_create_stocks_raise _ _ _ Hhit Hbad) as (remaining & e & Hrun & He).
  split; [by exists remaining, e|].
  intros date warehouse_id. exists remaining, e.
  by rewrite market_create_stocks, Hrun.
Qed.

(** ** [seller.main] *)

Lemma bind_run {St A B} (m : M St A) (k : A → M St B) (st : St) :
  bind m k st
  = match m st with
    | (st', Ok a) => k a st'
    | (st', Raise e) => (st', Raise e)
    end.
Proof. done. Qed.

Lemma filter_none {A} (P : A → Prop) `{!∀ x, Decision (P x)} (l : list A) :
  (∀ x, x ∈ l → ¬ P x) → filter P l = [].
Proof.
  induction l as [|x l IH]; intros Hnone; [done|].
  rewrite filter_cons_False by (apply Hnone; left).
  apply IH. intros y Hy. apply Hnone. by right.
Qed.

Lemma for_each_send_stocks network batches : ∀ (ids : list string) sent,
  ∃ extra r,
    Seller.for_each (λ some_stock, Seller.send network (Seller.StocksRequest some_stock))
      batches (ids, sent)
    = ((ids, sent ++ extra), r) ∧
    Forall is_stocks_request extra ∧
    ((∀ q, network q = Ok tt) → r = Ok tt).
Proof.
  induction batches as [|batch batches IH]; intros ids sent; simpl.
  - exists [], (Ok tt). by rewrite app_nil_r.
  - rewrite bind_run. simpl.
    destruct (network (Seller.StocksRequest batch)) as [[]|e] eqn:Hreply.
    + destruct (IH ids (sent ++ [Seller.StocksRequest batch]))
        as (extra & r & Hrun & Hall & Hr).
      exists (Seller.StocksRequest batch :: extra), r.
      split_and!; [by rewrite Hrun, <- app_assoc|by constructor|done].
    + exists [Seller.StocksRequest batch], (Raise e).
      split_and!; [done|by repeat constructor|].
      intros Hnet. by rewrite Hnet in Hreply.
Qed.

Lemma divide_ok {A} (lst : list A) (n : Z) :
  0 < n → ∃ chunks, divide lst n = Ok chunks ∧ (lst = [] → chunks = []).
Proof.
  intros Hn. unfold divide. rewrite divide_gen_pieces by done.
  eexists. split; [done|]. by intros ->.
Qed.

Lemma on_offer_ids_run {A} (m : M (list string) A) ids sent :
  Seller.on_offer_ids m (ids, sent)
  = (let '(ids', r) := m ids in ((ids', sent), r)).
Proof. done. Qed.

Lemma seller_main_try_run network rows (universe : list string) :
  NoDup universe →
  match Seller.create_stocks rows universe with
  | (remaining, Ok stocks) =>
      ∃ sent r,
        Seller.main_try network rows (universe, []) = ((remaining, sent), r) ∧
        Forall is_stocks_request sent ∧
        (r = Ok [] ∨ ∃ e, r = Raise e) ∧
        ((∀ q, network q = Ok tt) → r = Ok [])
  | (remaining, Raise e) =>
      Seller.main_try network rows (universe, []) = ((remaining, []), Raise e)
  end.
Proof.
  intros Hnd. unfold Seller.main_try. rewrite bind_run, on_offer_ids_run.
  destruct (Seller.create_stocks rows universe) as [remaining [stocks|e]] eqn:Hstocks;
    [|done].
  apply seller_create_stocks_inv in Hstocks as (_ & Hrem & _).
  rewrite bind_run. unfold lift at 1.
  destruct (divide_ok stocks 100 ltac:(lia)) as (batches & Hbatches & _).
  rewrite Hbatches, bind_run.
  destruct (for_each_send_stocks network batches remaining [])
    as (extra & r & Hsend & Hall & Hr).
  rewrite Hsend. simpl. destruct r as [[]|e].
  - exists extra, (Ok []). split_and!; [|done|by left|done].
    rewrite bind_run, on_offer_ids_run, seller_create_prices_run.
    rewrite filter_none by (subst remaining; by apply unmatched_disjoint).
    simpl. rewrite bind_run. unfold lift at 1.
    destruct (divide_ok (@nil Seller.Price) 900 ltac:(lia)) as (none & Hdiv & Hnone).
    rewrite Hdiv. by rewrite (Hnone eq_refl).
  - exists extra, (Raise e). split_and!; [done|done|right; by exists e|].
    intros Hnet. by specialize (Hr Hnet).
Qed.

(** C9: in [seller.main] the list left by [create_stocks] is what
    [create_prices] receives.  When the fetched list has no duplicates,
    every identifier matched by a supplier row is gone from it, the prices
    computed are the empty list, and no price request is sent. *)
Theorem seller_main_sends_no_prices (network : Seller.request → res unit)
    (rows : list (gmap string PyVal)) (universe : list string) :
  NoDup universe →
  (∀ remaining stocks,
     Seller.create_stocks rows universe = (remaining, Ok stocks) →
     remaining = filter (λ x, x ∉ code_of <$> rows) universe ∧
     Seller.create_prices rows remaining = (remaining, Ok []) ∧
     ((∀ q, network q = Ok tt) →
      ∃ sent, Seller.main_try network rows (universe, []) = ((remaining, sent), Ok []))) ∧
  (∀ final prices,
     Seller.main_try network rows (universe, []) = (final, Ok prices) → prices = []) ∧
  Forall is_stocks_request (Seller.main network universe rows).
Proof.
  intros Hnd. pose proof (seller_main_try_run network rows universe Hnd) as Hmain.
  split_and!.
  - intros remaining stocks Hstocks. rewrite Hstocks in Hmain.
    destruct Hmain as (sent & r & Hrun & _ & _ & Hr).
    apply seller_create_stocks_inv in Hstocks as (_ & Hrem & _).
    split_and!.
    + subst remaining. by apply unmatched_filter.
    + rewrite seller_create_prices_run.
      rewrite filter_none by (subst remaining; by apply unmatched_disjoint). done.
    + intros Hnet. exists sent. by rewrite Hrun, (Hr Hnet).
  - intros final prices Hrun.
    destruct (Seller.create_stocks rows universe) as [remaining [stocks|e]].
    + destruct Hmain as (sent & r & Hrun' & _ & [->|[e ->]] & _); congruence.
    + congruence.
  - unfold Seller.main.
    destruct (Seller.create_stocks rows universe) as [remaining [stocks|e]].
    + by destruct Hmain as (sent & r & -> & Hall & _).
    + rewrite Hmain. constructor.
Qed.


(** ** Price reconciliation: the result *)

Lemma res_all_Forall2 {A B} (f : A → res B) (l : list A) : ∀ r,
  res_all f l = Ok r ↔ Forall2 (λ x y, f x = Ok y) l r.
Proof.
  induction l as [|x l IH]; intros r; simpl.
  - split; [intros [= <-]; constructor|by intros ->%Forall2_nil_inv_l].
  - destruct (f x) as [y|e] eqn:Hx.
    + destruct (res_all f l) as [r'|e]; simpl.
      * split.
        -- intros [= <-]. constructor; [done|by apply IH].
        -- intros (y' & r'' & Hy & Hr & ->)%Forall2_cons_inv_l.
           apply IH in Hr. simpl in Hy. congruence.
      * split; [done|].
        intros (y' & r'' & Hy & Hr & ->)%Forall2_cons_inv_l.
        by apply IH in Hr.
    + split; [done|].
      intros (y' & r'' & Hy & Hr & ->)%Forall2_cons_inv_l. simpl in Hy. congruence.
Qed.

Lemma res_all_ok {A B} (f : A → res B) (l : list A) :
  Forall (λ x, is_ok (f x) = true) l → ∃ r, res_all f l = Ok r.
Proof.
  induction 1 as [|x l Hx _ [r IH]]; simpl; [by exists []|].
  destruct (f x) as [y|]; [|done]. rewrite IH. by eexists.
Qed.


Lemma seller_price_ids hits prices :
  Forall2 (λ watch p, seller_price_entry watch = Ok p) hits prices →
  Seller.price_offer_id <$> prices = code_of <$> hits.
Proof.
  induction 1 as [|watch p hits prices Hp _ IH]; [done|].
  rewrite !fmap_cons, IH. f_equal. unfold seller_price_entry in Hp.
  destruct (price_conversion_val _); simpl in Hp; by simplify_eq.
Qed.

Lemma market_price_ids hits prices :
  Forall2 (λ watch p, market_price_entry watch = Ok p) hits prices →
  Market.id <$> prices = code_of <$> hits.
Proof.
  induction 1 as [|watch p hits prices Hp _ IH]; [done|].
  rewrite !fmap_cons, IH. f_equal. unfold market_price_entry in Hp.
  destruct (price_conversion_val _); [|done].
  destruct (int_of_text _); simpl in Hp; by simplify_eq.
Qed.

Lemma price_conversion_total (text : string) :
  ∃ digits, price_conversion text = Ok digits ∧
            Forall (λ c, is_digit c = true) (chars digits).
Proof.
  destruct (split_first text) as (pre & pieces & Hsplit & _).
  exists (sub_non_digits pre). unfold price_conversion. rewrite Hsplit.
  split; [done|]. clear. induction pre as [|c pre IH]; simpl; [constructor|].
  destruct (is_digit c) eqn:Hc; [by constructor|done].
Qed.

Lemma digit_no_space c : is_digit c = true → is_space c = false.
Proof. destruct c as [[] [] [] [] [] [] [] []]; vm_compute; congruence. Qed.

Lemma digit_no_sign c rest :
  is_digit c = true →
  match String c rest with
  | String "-" tail => Z.opp <$> int_magnitude tail
  | String "+" tail => int_magnitude tail
  | _ => int_magnitude (String c rest)
  end = int_magnitude (String c rest).
Proof.
  destruct c as [[] [] [] [] [] [] [] []]; try reflexivity; vm_compute; congruence.
Qed.

Lemma int_digits_total s : ∀ acc,
  Forall (λ c, is_digit c = true) (chars s) → ∃ n, int_digits s acc = Some n.
Proof.
  induction s as [|c s IH]; intros acc Hall; simpl; [by eexists|].
  apply Forall_cons in Hall as [Hc Hall]. rewrite Hc. by apply IH.
Qed.

Lemma digits_ascii (digits : string) :
  Forall (λ c, is_digit c = true) (chars digits) → is_ascii digits = true.
Proof.
  induction digits as [|c digits IH]; [done|]. intros [Hc Hall]%Forall_cons.
  simpl. rewrite (IH Hall), andb_true_r.
  unfold is_digit in Hc. apply andb_true_iff in Hc as [_ Hhi].
  apply Nat.leb_le in Hhi. apply Nat.ltb_lt. lia.
Qed.

Lemma int_of_text_digits digits :
  digits ≠ EmptyString →
  Forall (λ c, is_digit c = true) (chars digits) →
  ∃ n, int_of_text digits = Ok n.
Proof.
  intros Hne Hall. rewrite int_of_text_ascii by by apply digits_ascii.
  unfold int_of_ascii_text. rewrite strip_no_space.
  - destruct digits as [|c rest]; [done|].
    apply Forall_cons in Hall as [Hc Hall].
    rewrite (digit_no_sign c rest Hc). simpl. rewrite Hc.
    destruct (int_digits_total rest (digit_val c) Hall) as [n ->]. by exists n.
  - eapply Forall_impl; [exact Hall|]. intros c. apply digit_no_space.
Qed.

Lemma res_all_fail {A B} (f : A → res B) (l : list A) :
  Exists (λ x, is_ok (f x) = false) l →
  ∃ y e, y ∈ l ∧ f y = Raise e ∧ res_all f l = Raise e.
Proof.
  induction l as [|x l IH]; intros Hex; [by apply Exists_nil in Hex|].
  simpl. destruct (f x) as [v|e] eqn:Hx.
  - apply Exists_cons in Hex as [Hbad|Hex]; [by rewrite Hx in Hbad|].
    destruct (IH Hex) as (y & e & Hin & Hy & ->).
    exists y, e. split_and!; [by right|done..].
  - exists x, e. split_and!; [by left|done..].
Qed.

Lemma seller_price_entry_ok watch :
  text_price watch → is_ok (seller_price_entry watch) = true.
Proof.
  intros [text Hprice]. unfold seller_price_entry. rewrite Hprice. simpl.
  by destruct (price_conversion_total text) as (digits & -> & _).
Qed.

Lemma seller_price_entry_raise watch :
  ¬ text_price watch → seller_price_entry watch = Raise AttributeError.
Proof.
  intros Hno. unfold seller_price_entry.
  destruct (price_of watch) as [| | |text] eqn:Hprice; try done.
  destruct Hno. by exists text.
Qed.

Lemma market_price_entry_ok watch :
  digit_price watch → is_ok (market_price_entry watch) = true.
Proof.
  intros (text & digits & Hprice & Hconv & Hne).
  unfold market_price_entry. rewrite Hprice. simpl. rewrite Hconv.
  destruct (price_conversion_total text) as (digits' & Hconv' & Hall).
  assert (digits' = digits) as -> by congruence.
  by destruct (int_of_text_digits digits Hne Hall) as [n ->].
Qed.

Lemma market_price_entry_raise watch :
  ¬ digit_price watch →
  market_price_entry watch = Raise AttributeError ∨
  market_price_entry watch = Raise ValueError.
Proof.
  intros Hno. unfold market_price_entry.
  destruct (price_of watch) as [| | |text] eqn:Hprice; try by left.
  right. simpl. destruct (price_conversion_total text) as (digits & Hconv & _).
  rewrite Hconv. destruct (decide (digits = EmptyString)) as [->|Hne]; [done|].
  destruct Hno. by exists text, digits.
Qed.

(** C6, amended: [create_prices] returns one entry, in feed order, for
    exactly the rows whose code is in the universe, repeated codes
    included, and no entry for a code that no row carries, so that the
    output is no longer than the feed: [seller.create_prices] whenever the
    price cell of each of those rows is a text, [market.create_prices]
    whenever it is a text with a digit before its first dot.  Otherwise
    the call raises and returns no list: [seller.create_prices] raises
    [AttributeError], [market.create_prices] raises [AttributeError] or
    [ValueError].  The universe is left as it was in every case. *)
Theorem create_prices_spec (rows : list (gmap string PyVal)) (universe : list string) :
  (Forall text_price (filter (λ watch, code_of watch ∈ universe) rows) →
   ∃ prices,
     Seller.create_prices rows universe = (universe, Ok prices) ∧
     Forall2 (λ watch p, seller_price_entry watch = Ok p)
       (filter (λ watch, code_of watch ∈ universe) rows) prices ∧
     Seller.price_offer_id <$> prices
       = code_of <$> filter (λ watch, code_of watch ∈ universe) rows ∧
     (length prices ≤ length rows)%nat) ∧
  (Exists (λ watch, ¬ text_price watch)
     (filter (λ watch, code_of watch ∈ universe) rows) →
   Seller.create_prices rows universe = (universe, Raise AttributeError)) ∧
  (Forall digit_price (filter (λ watch, code_of watch ∈ universe) rows) →
   ∃ prices,
     Market.create_prices rows universe = (universe, Ok prices) ∧
     Forall2 (λ watch p, market_price_entry watch = Ok p)
       (filter (λ watch, code_of watch ∈ universe) rows) prices ∧
     Market.id <$> prices
       = code_of <$> filter (λ watch, code_of watch ∈ universe) rows ∧
     (length prices ≤ length rows)%nat) ∧
  (Exists (λ watch, ¬ digit_price watch)
     (filter (λ watch, code_of watch ∈ universe) rows) →
   ∃ e,
     Market.create_prices rows universe = (universe, Raise e) ∧
     (e = AttributeError ∨ e = ValueError)).
Proof.
  split_and!.
  - intros Htext.
    destruct (res_all_ok seller_price_entry
                (filter (λ watch, code_of watch ∈ universe) rows)) as [prices Hall].
    { eapply Forall_impl; [exact Htext|]. apply seller_price_entry_ok. }
    exists prices. rewrite seller_create_prices_run, Hall.
    apply res_all_Forall2 in Hall. split_and!; [done..| |].
    + by apply seller_price_ids.
    + rewrite <- (Forall2_length _ _ _ Hall). apply length_filter.
  - intros Hbad. rewrite seller_create_prices_run.
    destruct (res_all_fail seller_price_entry
                (filter (λ watch, code_of watch ∈ universe) rows))
      as (y & e & _ & Hy & ->).
    { eapply Exists_impl; [exact Hbad|]. intros watch Hno. simpl in Hno.
      by rewrite (seller_price_entry_raise watch Hno). }
    f_equal. f_equal.
    unfold seller_price_entry in Hy.
    destruct (price_of y) as [| | |text]; simpl in Hy; try congruence.
    by destruct (price_conversion_total text) as (digits & Hconv & _);
      rewrite Hconv in Hy.
  - intros Hdigits.
    destruct (res_all_ok market_price_entry
                (filter (λ watch, code_of watch ∈ universe) rows)) as [prices Hall].
    { eapply Forall_impl; [exact Hdigits|]. apply market_price_entry_ok. }
    exists prices. rewrite market_create_prices_run, Hall.
    apply res_all_Forall2 in Hall. split_and!; [done..| |].
    + by apply market_price_ids.
    + rewrite <- (Forall2_length _ _ _ Hall). apply length_filter.
  - intros Hbad. rewrite market_create_prices_run.
    destruct (res_all_fail market_price_entry
                (filter (λ watch, code_of watch ∈ universe) rows))
      as (y & e & _ & Hy & ->).
    { eapply Exists_impl; [exact Hbad|]. intros watch Hno. simpl in Hno.
      by destruct (market_price_entry_raise watch Hno) as [-> | ->]. }
    exists e. split; [done|].
    unfold market_price_entry in Hy.
    destruct (price_of y) as [| | |text]; simpl in Hy; try (left; congruence).
    destruct (price_conversion_total text) as (digits & Hconv & _).
    rewrite Hconv in Hy. unfold int_of_text in Hy. right.
    destruct (if is_ascii digits then int_of_ascii_text digits else wide_int digits);
      simpl in Hy; congruence.
Qed.

(** ** A price without digits *)


(** * Further properties of the code *)

(** ** The batcher outside its contract *)

(** [divide] with a chunk size that is not positive: size 0 raises
    [ValueError] (from [range]); a negative size yields no chunk at all,
    whatever the list holds.  The list object is left as it was. *)
Theorem divide_nonpositive {A} (lst : list A) (n : Z) :
  n ≤ 0 →
  divide_gen n lst = (lst, if n =? 0 then Raise ValueError else Ok []) ∧
  divide lst n = if n =? 0 then Raise ValueError else Ok [].
Proof.
  intros Hn.
  assert (divide_gen n lst = (lst, if n =? 0 then Raise ValueError else Ok [])) as Hrun.
  { unfold divide_gen, bind, get, lift, py_range.
    destruct (Z.eqb_spec n 0) as [->|Hne]; [done|].
    destruct (Z.ltb_spec 0 n) as [?|_]; [lia|].
    destruct (Z.leb_spec 0 (Z.of_nat (length lst))) as [_|?]; [done|lia]. }
  split; [done|]. unfold divide. by rewrite Hrun.
Qed.

(** For a positive size the number of chunks is the length divided by the
    size, rounded up; a non-empty list no longer than the size goes out as
    one chunk. *)
Theorem divide_count {A} (lst : list A) (n : Z) :
  0 < n →
  ∃ chunks,
    divide lst n = Ok chunks ∧
    Z.of_nat (length chunks) = (Z.of_nat (length lst) + n - 1) / n ∧
    (lst ≠ [] → Z.of_nat (length lst) ≤ n → chunks = [lst]).
Proof.
  intros Hn. exists (pieces (Z.to_nat n) lst (chunk_count (Z.of_nat (length lst)) n)).
  split_and!.
  - unfold divide. by rewrite divide_gen_pieces.
  - unfold pieces. rewrite length_fmap, length_seq. unfold chunk_count.
    destruct (Z.leb_spec (Z.of_nat (length lst)) 0) as [Hz|Hpos].
    + replace (Z.of_nat (length lst)) with 0 by lia.
      rewrite Z.div_small by lia. done.
    + replace (Z.of_nat (length lst) + n - 1) with (Z.of_nat (length lst) - 0 - 1 + 1 * n) by lia.
      rewrite Z.div_add by lia.
      assert (0 ≤ (Z.of_nat (length lst) - 0 - 1) / n) by (apply Z.div_pos; lia). lia.
  - intros Hne Hshort. unfold chunk_count.
    destruct (Z.leb_spec (Z.of_nat (length lst)) 0) as [Hz|Hpos].
    { destruct lst; [done|simpl in Hz; lia]. }
    rewrite Z.div_small by lia. simpl. unfold pieces. simpl.
    rewrite drop_0, take_ge by lia. done.
Qed.

(** ** The quantity rule on integer cells *)

(** An integer cell goes through unchanged, negative values included,
    except 1, which becomes 0. *)
Theorem stock_of_count_int (n : Z) :
  stock_of_count (PyInt n) = Ok (if n =? 1 then 0 else n).
Proof.
  pose proof (int_of_text_str n) as Hround. unfold stock_of_count.
  destruct (String.eqb_spec (py_str (PyInt n)) ">10") as [Hten|_].
  { rewrite Hten in Hround. vm_compute in Hround. discriminate. }
  destruct (String.eqb_spec (py_str (PyInt n)) "1") as [Hone|Hone].
  - rewrite Hone in Hround. vm_compute in Hround.
    assert (n = 1) as -> by congruence. done.
  - destruct (Z.eqb_spec n 1) as [->|_]; [|done].
    exfalso. apply Hone. reflexivity.
Qed.

(** ** Prices *)

Lemma sub_non_digits_digits (d : string) :
  Forall (λ c, is_digit c = true) (chars d) → sub_non_digits d = d.
Proof.
  induction d as [|c d IH]; [done|]. intros [Hc Hd]%Forall_cons.
  simpl. rewrite Hc. by rewrite IH.
Qed.

Lemma digits_no_dot (d : string) :
  Forall (λ c, is_digit c = true) (chars d) → dot ∉ chars d.
Proof.
  intros Hall Hin. rewrite Forall_forall in Hall.
  specialize (Hall dot Hin). vm_compute in Hall. discriminate.
Qed.

(** [price_conversion] applied to its own result gives it back, and what
    follows the first dot of a price has no influence on the result. *)
Theorem price_conversion_stable :
  (∀ p, ∃ digits,
     price_conversion p = Ok digits ∧ price_conversion digits = Ok digits) ∧
  (∀ pre post,
     dot ∉ chars pre →
     price_conversion (pre +:+ String "." post) = price_conversion pre).
Proof.
  split.
  - intros p. destruct (price_conversion_total p) as (digits & Hrun & Hall).
    exists digits. split; [done|].
    destruct (split_before_dot digits (digits_no_dot digits Hall)) as [Hone _].
    unfold price_conversion. rewrite Hone. simpl.
    by rewrite sub_non_digits_digits.
  - intros pre post Hdot. destruct (split_before_dot pre Hdot) as [Hone Hpost].
    unfold price_conversion. by rewrite Hone, Hpost.
Qed.

(** ** Reconciliation against an empty offer list *)

(** When the marketplace lists no offer, both passes of both marketplaces
    return the empty list whatever the feed holds: no cell of the feed is
    converted, so a malformed cell cannot make them raise. *)
Theorem reconcile_no_offers (rows : list (gmap string PyVal))
    (date warehouse_id : string) :
  Seller.create_stocks rows [] = ([], Ok []) ∧
  Market.create_stocks date rows warehouse_id [] = ([], Ok []) ∧
  Seller.create_prices rows [] = ([], Ok []) ∧
  Market.create_prices rows [] = ([], Ok []).
Proof.
  destruct (unmatched_none rows []) as [Hnone Hsame].
  { intros watch _. apply not_elem_of_nil. }
  assert (Seller.create_stocks rows [] = ([], Ok [])) as Hstocks.
  { rewrite seller_create_stocks_ok; rewrite Hnone, ?Hsame; [done|constructor]. }
  split_and!.
  - done.
  - by rewrite market_create_stocks, Hstocks.
  - rewrite seller_create_prices_run, filter_none; [done|].
    intros watch _. apply not_elem_of_nil.
  - rewrite market_create_prices_run, filter_none; [done|].
    intros watch _. apply not_elem_of_nil.
Qed.

(** ** What a price entry can hold *)

Lemma Forall2_right {A B} (R : A → B → Prop) (Q : B → Prop) (l : list A) (k : list B) :
  Forall2 R l k → (∀ x y, x ∈ l → R x y → Q y) → Forall Q k.
Proof.
  induction 1 as [|x y l k Hxy _ IH]; intros Himp; [constructor|].
  constructor; [apply (Himp x); [left|done]|].
  apply IH. intros x' y' Hin. apply Himp. by right.
Qed.

Lemma int_digits_nonneg s : ∀ acc n,
  Forall (λ c, is_digit c = true) (chars s) →
  0 ≤ acc → int_digits s acc = Some n → 0 ≤ n.
Proof.
  induction s as [|c s IH]; intros acc n Hall Hacc Hrun; simpl in Hrun.
  { by simplify_eq. }
  apply Forall_cons in Hall as [Hc Hall]. rewrite Hc in Hrun.
  apply (IH _ _ Hall) in Hrun; [done|].
  unfold is_digit in Hc. apply andb_true_iff in Hc as [Hlo _].
  apply Nat.leb_le in Hlo. unfold digit_val. lia.
Qed.

Lemma int_of_text_digits_nonneg digits n :
  Forall (λ c, is_digit c = true) (chars digits) →
  int_of_text digits = Ok n → 0 ≤ n.
Proof.
  intros Hall. rewrite int_of_text_ascii by by apply digits_ascii.
  unfold int_of_ascii_text. rewrite strip_no_space.
  2: { eapply Forall_impl; [exact Hall|]. intros c. apply digit_no_space. }
  destruct digits as [|c rest]; [done|].
  pose proof Hall as [Hc Hrest]%Forall_cons.
  rewrite (digit_no_sign c rest Hc). simpl. rewrite Hc.
  destruct (int_digits rest (digit_val c)) as [m|] eqn:Hrun; [|done].
  intros [= <-]. apply (int_digits_nonneg rest (digit_val c) m Hrest); [|done].
  unfold is_digit in Hc. apply andb_true_iff in Hc as [Hlo _].
  apply Nat.leb_le in Hlo. unfold digit_val. lia.
Qed.

(** Every entry that [seller.create_prices] returns is for a code of the
    offer list, its price holds ASCII digits only (possibly none), and the
    other three fields are the constants ["UNKNOWN"], ["RUB"] and ["0"]. *)
Theorem seller_prices_shape (rows : list (gmap string PyVal))
    (universe remaining : list string) (prices : list Seller.Price) :
  Seller.create_prices rows universe = (remaining, Ok prices) →
  Forall (λ p,
            Seller.price_offer_id p ∈ universe ∧
            Forall (λ c, is_digit c = true) (chars (Seller.price p)) ∧
            Seller.auto_action_enabled p = "UNKNOWN" ∧
            Seller.currency_code p = "RUB" ∧
            Seller.old_price p = "0") prices.
Proof.
  rewrite seller_create_prices_run. intros [= _ Hall].
  apply res_all_Forall2 in Hall.
  apply (Forall2_right _ _ _ _ Hall).
  intros watch p [Hcode _]%list_elem_of_filter Hentry.
  unfold seller_price_entry in Hentry.
  destruct (price_of watch) as [| | |text]; try done. simpl in Hentry.
  destruct (price_conversion_total text) as (digits & Hconv & Hdigits).
  rewrite Hconv in Hentry. simpl in Hentry. by simplify_eq.
Qed.

(** Every entry that [market.create_prices] returns is for a code of the
    offer list, in the currency ["RUR"], and its value is not negative. *)
Theorem market_prices_shape (rows : list (gmap string PyVal))
    (universe remaining : list string) (prices : list Market.Price) :
  Market.create_prices rows universe = (remaining, Ok prices) →
  Forall (λ p,
            Market.id p ∈ universe ∧
            0 ≤ Market.value (Market.price p) ∧
            Market.currencyId (Market.price p) = "RUR") prices.
Proof.
  rewrite market_create_prices_run. intros [= _ Hall].
  apply res_all_Forall2 in Hall.
  apply (Forall2_right _ _ _ _ Hall).
  intros watch p [Hcode _]%list_elem_of_filter Hentry.
  unfold market_price_entry in Hentry.
  destruct (price_of watch) as [| | |text]; try done. simpl in Hentry.
  destruct (price_conversion_total text) as (digits & Hconv & Hdigits).
  rewrite Hconv in Hentry.
  destruct (int_of_text digits) as [amount|] eqn:Hamount; [|done].
  simpl in Hentry. simplify_eq. simpl. split_and!; [done| |done].
  by apply (int_of_text_digits_nonneg digits).
Qed.

(** ** Listing the offers *)

Lemma seller_offer_ids_loop_returns get_product_list pages :
  ∀ fuel calls last_id product_list,
    seller_pages_served get_product_list calls last_id pages →
    seller_total_reached (length product_list) pages →
    (length pages ≤ fuel)%nat →
    SellerSync.offer_ids_loop fuel get_product_list calls last_id product_list
    = Some (Ok (product_list ++ concat (SellerSync.items <$> pages))).
Proof.
  induction pages as [|page pages IH];
    intros fuel calls last_id product_list Hserved Hreached Hfuel; [done|].
  destruct fuel as [|fuel]; [simpl in Hfuel; lia|].
  destruct Hserved as [Hpage Hserved]. simpl. rewrite Hpage.
  simpl in Hreached. rewrite length_app.
  destruct pages as [|next pages].
  - rewrite Hreached, Z.eqb_refl. simpl. by rewrite app_nil_r.
  - destruct Hreached as [Hne Hreached].
    apply Z.eqb_neq in Hne. rewrite Hne.
    rewrite IH; [|done|by rewrite length_app|simpl in *; lia].
    by rewrite <- app_assoc.
Qed.

(** [seller.get_offer_ids] returns as soon as the total announced by a page
    equals the number of products received so far: if that happens at the
    last of [pages] and not before, the result is the identifiers of all
    these pages in the order received, whatever fuel beyond their number is
    given. *)
Theorem seller_get_offer_ids_returns
    (get_product_list : nat → string → res SellerSync.Page)
    (pages : list SellerSync.Page) (fuel : nat) :
  seller_pages_served get_product_list 0 EmptyString pages →
  seller_total_reached 0 pages →
  (length pages ≤ fuel)%nat →
  SellerSync.get_offer_ids fuel get_product_list
  = Some (Ok (concat (SellerSync.items <$> pages))).
Proof.
  intros Hserved Hreached Hfuel. unfold SellerSync.get_offer_ids.
  by rewrite (seller_offer_ids_loop_returns _ pages).
Qed.

Lemma seller_offer_ids_loop_overshoot get_product_list (announced : Z) :
  (∀ calls last_id, ∃ page,
     get_product_list calls last_id = Ok page ∧ SellerSync.total page = announced) →
  ∀ fuel calls last_id product_list,
    announced < Z.of_nat (length product_list) →
    SellerSync.offer_ids_loop fuel get_product_list calls last_id product_list = None.
Proof.
  intros Hserver. induction fuel as [|fuel IH];
    intros calls last_id product_list Hover; [done|].
  simpl. destruct (Hserver calls last_id) as (page & -> & Htotal).
  rewrite Htotal, length_app.
  destruct (Z.eqb_spec announced
              (Z.of_nat (length product_list + length (SellerSync.items page)))) as [?|_];
    [lia|].
  apply IH. rewrite length_app. lia.
Qed.

(** [seller.get_offer_ids] never returns when the service keeps answering
    with one same total and the first page already holds more products than
    that total: the equality test of the loop cannot succeed any more. *)
Theorem seller_get_offer_ids_overshoot
    (get_product_list : nat → string → res SellerSync.Page) (announced : Z) :
  (∀ calls last_id, ∃ page,
     get_product_list calls last_id = Ok page ∧ SellerSync.total page = announced) →
  (∀ page, get_product_list 0%nat EmptyString = Ok page →
           announced < Z.of_nat (length (SellerSync.items page))) →
  ∀ fuel, SellerSync.get_offer_ids fuel get_product_list = None.
Proof.
  intros Hserver Hfirst [|fuel]; [done|].
  unfold SellerSync.get_offer_ids. simpl.
  destruct (Hserver 0%nat EmptyString) as (page & Hpage & Htotal).
  rewrite Hpage, Htotal. specialize (Hfirst page Hpage).
  destruct (Z.eqb_spec announced (Z.of_nat (length (SellerSync.items page)))) as [?|_];
    [lia|].
  by apply (seller_offer_ids_loop_overshoot _ announced).
Qed.

Lemma market_offer_ids_loop_returns get_product_list pages :
  ∀ fuel calls page product_list,
    market_pages_served get_product_list calls page pages →
    market_last_page pages →
    (length pages ≤ fuel)%nat →
    MarketSync.offer_ids_loop fuel get_product_list calls page product_list
    = Some (Ok (product_list ++ concat (MarketSync.offerMappingEntries <$> pages))).
Proof.
  induction pages as [|answer pages IH];
    intros fuel calls page product_list Hserved Hlast Hfuel; [done|].
  destruct fuel as [|fuel]; [simpl in Hfuel; lia|].
  destruct Hserved as [Hanswer Hserved]. simpl. rewrite Hanswer.
  simpl in Hlast. destruct pages as [|next pages].
  - rewrite Hlast. simpl. by rewrite app_nil_r.
  - destruct Hlast as [Hmore Hlast]. rewrite Hmore.
    rewrite IH; [|done|done|simpl in *; lia].
    by rewrite <- app_assoc.
Qed.

(** [market.get_offer_ids] returns at the first page without a continuation
    token (absent or empty): the result is the identifiers of all the pages
    up to that one, in the order received. *)
Theorem market_get_offer_ids_returns
    (get_product_list : nat → option string → res MarketSync.Page)
    (pages : list MarketSync.Page) (fuel : nat) :
  market_pages_served get_product_list 0 (Some EmptyString) pages →
  market_last_page pages →
  (length pages ≤ fuel)%nat →
  MarketSync.get_offer_ids fuel get_product_list
  = Some (Ok (concat (MarketSync.offerMappingEntries <$> pages))).
Proof.
  intros Hserved Hlast Hfuel. unfold MarketSync.get_offer_ids.
  by rewrite (market_offer_ids_loop_returns _ pages).
Qed.

(** [market.get_offer_ids] never returns when every page the service
    answers carries a non-empty continuation token. *)
Theorem market_get_offer_ids_endless
    (get_product_list : nat → option string → res MarketSync.Page) :
  (∀ calls page, ∃ answer,
     get_product_list calls page = Ok answer ∧
     MarketSync.falsy (MarketSync.nextPageToken answer) = false) →
  ∀ fuel, MarketSync.get_offer_ids fuel get_product_list = None.
Proof.
  intros Hserver fuel. unfold MarketSync.get_offer_ids.
  generalize 0%nat (Some EmptyString) (@nil string).
  induction fuel as [|fuel IH]; intros calls page product_list; [done|].
  simpl. destruct (Hserver calls page) as (answer & -> & ->). apply IH.
Qed.


(** ** Sending batches *)

Lemma for_each_logged {St A} (body : A → M St unit) (step : St → A → St)
    (reply : A → res unit) :
  (∀ x st, body x st = (step st x, reply x)) →
  ∀ items st,
    (Forall (λ x, reply x = Ok tt) items ∧
     Seller.for_each body items st = (foldl step st items, Ok tt)) ∨
    (∃ before x after e,
       items = before ++ x :: after ∧
       Forall (λ y, reply y = Ok tt) before ∧
       reply x = Raise e ∧
       Seller.for_each body items st = (foldl step st (before ++ [x]), Raise e)).
Proof.
  intros Hbody. induction items as [|x items IH]; intros st; simpl.
  { left. by split. }
  rewrite bind_run, Hbody. destruct (reply x) as [[]|e] eqn:Hx.
  - destruct (IH (step st x)) as [[Hall Hrun]|(before & y & after & e & -> & Hall & Hy & Hrun)].
    + left. split; [by constructor|done].
    + right. exists (x :: before), y, after, e. split_and!; try done. by constructor.
  - right. exists [], x, items, e. by split_and!.
Qed.

Lemma seller_send_batches {A} (network : Seller.request → res unit)
    (wrap : list A → Seller.request) (batches : list (list A))
    (ids : list string) (sent : list Seller.request) :
  ∃ log r,
    Seller.for_each (λ batch, Seller.send network (wrap batch)) batches (ids, sent)
    = ((ids, sent ++ log), r) ∧
    (sent_all network wrap batches log r ∨ sent_until_failure network wrap batches log r).
Proof.
  assert (∀ l st, foldl (λ (st : list string * list Seller.request) batch,
                           (st.1, st.2 ++ [wrap batch])) st l
                  = (st.1, st.2 ++ (wrap <$> l))) as Hfold.
  { induction l as [|b l IH]; intros [i s]; simpl; [by rewrite app_nil_r|].
    rewrite IH. simpl. by rewrite <- app_assoc. }
  destruct (for_each_logged
              (λ batch, Seller.send network (wrap batch))
              (λ st batch, (st.1, st.2 ++ [wrap batch]))
              (λ batch, network (wrap batch))
              ltac:(by intros x [i s]) batches (ids, sent))
    as [[Hall Hrun]|(before & b & after & e & Hsplit & Hall & Hb & Hrun)];
    rewrite Hrun, Hfold; simpl.
  - exists (wrap <$> batches), (Ok tt). split; [done|]. left. by split_and!.
  - exists (wrap <$> before ++ [b]), (Raise e). split; [done|].
    right. exists before, b, after, e. by split_and!.
Qed.

Lemma market_send_batches {A} (network : MarketSync.request → res unit)
    (wrap : list A → MarketSync.request) (batches : list (list A))
    (sent : list MarketSync.request) :
  ∃ log r,
    Seller.for_each (λ batch, MarketSync.send network (wrap batch)) batches sent
    = (sent ++ log, r) ∧
    (sent_all network wrap batches log r ∨ sent_until_failure network wrap batches log r).
Proof.
  assert (∀ l (st : list MarketSync.request),
            foldl (λ st batch, st ++ [wrap batch]) st l = st ++ (wrap <$> l)) as Hfold.
  { induction l as [|b l IH]; intros st; simpl; [by rewrite app_nil_r|].
    rewrite IH. by rewrite <- app_assoc. }
  destruct (for_each_logged
              (λ batch, MarketSync.send network (wrap batch))
              (λ st batch, st ++ [wrap batch])
              (λ batch, network (wrap batch))
              ltac:(done) batches sent)
    as [[Hall Hrun]|(before & b & after & e & Hsplit & Hall & Hb & Hrun)];
    rewrite Hrun, Hfold.
  - exists (wrap <$> batches), (Ok tt). split; [done|]. left. by split_and!.
  - exists (wrap <$> before ++ [b]), (Raise e). split; [done|].
    right. exists before, b, after, e. by split_and!.
Qed.

Lemma divide_batches {A} (lst : list A) (n : Z) :
  0 < n →
  ∃ batches,
    divide lst n = Ok batches ∧
    concat batches = lst ∧
    Forall (λ batch, 0 < Z.of_nat (length batch) ≤ n) batches.
Proof.
  intros Hn.
  destruct (chunk_count_bounds (length lst) n Hn) as (Hcover & Hempty & Hlast).
  exists (pieces (Z.to_nat n) lst (chunk_count (Z.of_nat (length lst)) n)).
  split_and!.
  - unfold divide. by rewrite divide_gen_pieces.
  - by apply concat_pieces.
  - apply Forall_forall. intros batch [k Hk]%list_elem_of_lookup.
    apply pieces_lookup in Hk as [Hlt ->].
    rewrite length_take, length_drop.
    assert (k * Z.to_nat n ≤ (chunk_count (Z.of_nat (length lst)) n - 1) * Z.to_nat n)%nat
      by (apply Nat.mul_le_mono_r; lia).
    destruct (length lst); simpl in *; lia.
Qed.

(** ** [seller.upload_stocks] and [seller.upload_prices] *)

(** Once [create_stocks] has returned, [seller.upload_stocks] cuts its
    output into batches of 1 to 100 entries that together are that output,
    and sends them in order.  Either every batch is answered and the result
    is the pair of the entries with a non-zero quantity and of all entries,
    or the sending stops at the first batch that raises: the batches before
    it stay sent and that exception is the outcome. *)
Theorem seller_upload_stocks_run (network : Seller.request → res unit)
    (rows : list (gmap string PyVal)) (universe remaining : list string)
    (stocks : list Seller.Stock) :
  Seller.create_stocks rows universe = (remaining, Ok stocks) →
  ∃ batches log r,
    divide stocks 100 = Ok batches ∧
    concat batches = stocks ∧
    Forall (λ batch, 0 < Z.of_nat (length batch) ≤ 100) batches ∧
    SellerSync.upload_stocks network rows (universe, [])
    = ((remaining, log),
       res_map (λ _, (filter (λ stock, Seller.stock stock ≠ 0) stocks, stocks)) r) ∧
    (sent_all network Seller.StocksRequest batches log r ∨
     sent_until_failure network Seller.StocksRequest batches log r).
Proof.
  intros Hstocks.
  destruct (divide_batches stocks 100 ltac:(lia)) as (batches & Hdivide & Hconcat & Hsize).
  destruct (seller_send_batches network Seller.StocksRequest batches remaining [])
    as (log & r & Hsend & Hcases).
  exists batches, log, r. split_and!; try done.
  unfold SellerSync.upload_stocks.
  rewrite bind_run, on_offer_ids_run, Hstocks.
  rewrite bind_run. unfold lift at 1. rewrite Hdivide.
  rewrite bind_run, Hsend. by destruct r as [[]|e].
Qed.

(** Every entry that [seller.upload_stocks] reports as non-empty comes from
    a row of the feed: its identifier is the code of the row and its
    quantity, which is not 0, is what the quantity rule gives for the row.
    An offer without a row in the feed is never reported. *)
Theorem seller_upload_stocks_not_empty (network : Seller.request → res unit)
    (rows : list (gmap string PyVal)) (universe : list string)
    (final : list string * list Seller.request)
    (not_empty stocks : list Seller.Stock) :
  SellerSync.upload_stocks network rows (universe, []) = (final, Ok (not_empty, stocks)) →
  not_empty = filter (λ stock, Seller.stock stock ≠ 0) stocks ∧
  Forall (λ entry,
            ∃ watch, watch ∈ rows ∧
                     code_of watch = Seller.offer_id entry ∧
                     stock_of_count (count_of watch) = Ok (Seller.stock entry) ∧
                     Seller.stock entry ≠ 0) not_empty.
Proof.
  unfold SellerSync.upload_stocks. rewrite bind_run, on_offer_ids_run.
  destruct (Seller.create_stocks rows universe) as [remaining [out|e]] eqn:Hstocks; [|done].
  rewrite bind_run. unfold lift at 1.
  destruct (divide out 100) as [batches|e]; [|done].
  rewrite bind_run.
  destruct (Seller.for_each _ batches (remaining, [])) as [st [[]|e]]; [|done].
  intros [= _ <- <-]. split; [done|].
  apply seller_create_stocks_inv in Hstocks as (Hok & _ & ->).
  rewrite filter_app. apply Forall_app. split.
  - apply Forall_forall. intros entry [Hnz Hin]%list_elem_of_filter.
    apply list_elem_of_fmap in Hin as (watch & -> & Hin).
    rewrite Forall_forall in Hok. specialize (Hok watch Hin).
    apply matched_elem in Hin as [Hrow _].
    exists watch. split_and!; [done|done| |done].
    unfold converts in Hok. simpl. unfold stock_value.
    by destruct (stock_of_count (count_of watch)).
  - rewrite filter_none; [constructor|].
    intros entry (x & -> & _)%list_elem_of_fmap. simpl. by intros ?.
Qed.

(** An empty feed makes [seller.upload_stocks] send quantity 0 for every
    listed offer and report nothing as non-empty. *)
Theorem seller_upload_stocks_empty_feed (network : Seller.request → res unit)
    (universe : list string) :
  (∀ q, network q = Ok tt) →
  ∃ batches,
    divide (seller_zero <$> universe) 100 = Ok batches ∧
    SellerSync.upload_stocks network [] (universe, [])
    = ((universe, Seller.StocksRequest <$> batches),
       Ok ([], seller_zero <$> universe)).
Proof.
  intros Hnet.
  assert (Seller.create_stocks [] universe = (universe, Ok (seller_zero <$> universe)))
    as Hstocks by (by rewrite seller_create_stocks_ok by constructor).
  destruct (divide_batches (seller_zero <$> universe) 100 ltac:(lia))
    as (batches & Hdivide & _ & _).
  destruct (seller_send_batches network Seller.StocksRequest batches universe [])
    as (log & r & Hsend & Hcases).
  exists batches. split; [done|].
  unfold SellerSync.upload_stocks.
  rewrite bind_run, on_offer_ids_run, Hstocks.
  rewrite bind_run. unfold lift at 1. rewrite Hdivide.
  rewrite bind_run, Hsend.
  destruct Hcases as [(_ & -> & ->)|(before & b & after & e & _ & _ & Hb & _)].
  - simpl. rewrite filter_none; [done|].
    intros entry (x & -> & _)%list_elem_of_fmap. simpl. by intros ?.
  - by rewrite Hnet in Hb.
Qed.

(** [seller.upload_prices], run on a list just fetched, sends a price for
    every row of the feed whose code is listed: once [create_prices] has
    returned, its output goes out in order, in batches of 1 to 1000 entries,
    up to the first batch that raises. *)
Theorem seller_upload_prices_run (network : Seller.request → res unit)
    (rows : list (gmap string PyVal)) (universe : list string)
    (prices : list Seller.Price) :
  snd (Seller.create_prices rows universe) = Ok prices →
  Seller.price_offer_id <$> prices
    = code_of <$> filter (λ watch, code_of watch ∈ universe) rows ∧
  ∃ batches log r,
    divide prices 1000 = Ok batches ∧
    concat batches = prices ∧
    Forall (λ batch, 0 < Z.of_nat (length batch) ≤ 1000) batches ∧
    SellerSync.upload_prices network rows (universe, [])
    = ((universe, log), res_map (λ _, prices) r) ∧
    (sent_all network Seller.PricesRequest batches log r ∨
     sent_until_failure network Seller.PricesRequest batches log r).
Proof.
  rewrite seller_create_prices_run. simpl. intros Hprices. split.
  { apply seller_price_ids. by apply res_all_Forall2. }
  destruct (divide_batches prices 1000 ltac:(lia)) as (batches & Hdivide & Hconcat & Hsize).
  destruct (seller_send_batches network Seller.PricesRequest batches universe [])
    as (log & r & Hsend & Hcases).
  exists batches, log, r. split_and!; try done.
  unfold SellerSync.upload_prices.
  rewrite bind_run, on_offer_ids_run, seller_create_prices_run, Hprices.
  rewrite bind_run. unfold lift at 1. rewrite Hdivide.
  rewrite bind_run, Hsend. by destruct r as [[]|e].
Qed.

(** ** [market.upload_stocks], [market.upload_prices] and [market.main] *)

Lemma market_not_empty (date warehouse_id : string) (out : list Seller.Stock) :
  MarketSync.res_filter MarketSync.has_count (to_market date warehouse_id <$> out)
  = Ok (to_market date warehouse_id <$> filter (λ stock, Seller.stock stock ≠ 0) out).
Proof.
  induction out as [|entry out IH]; [done|].
  rewrite fmap_cons. simpl. rewrite IH. simpl. rewrite filter_cons.
  destruct (Z.eqb_spec (Seller.stock entry) 0) as [Hz|Hnz]; simpl.
  - by rewrite decide_False by (by intros ?).
  - by rewrite decide_True by done.
Qed.

Lemma market_stock_phase_run (listing : string → res (list string))
    (network : MarketSync.request → res unit) (date : string)
    (rows : list (gmap string PyVal)) (campaign_id warehouse_id : string)
    (sent : list MarketSync.request) :
  ∃ log r,
    market_stock_phase listing network date rows campaign_id warehouse_id sent
    = (sent ++ MarketSync.ListOffers campaign_id :: log, r) ∧
    match listing campaign_id with
    | Raise e => log = [] ∧ r = Raise e
    | Ok offer_ids =>
        match snd (Market.create_stocks date rows warehouse_id offer_ids) with
        | Raise e => log = [] ∧ r = Raise e
        | Ok stocks =>
            ∃ batches,
              divide stocks 2000 = Ok batches ∧
              concat batches = stocks ∧
              Forall (λ batch, 0 < Z.of_nat (length batch) ≤ 2000) batches ∧
              (sent_all network (MarketSync.StocksRequest campaign_id) batches log r ∨
               sent_until_failure network (MarketSync.StocksRequest campaign_id)
                 batches log r)
        end
    end.
Proof.
  unfold market_stock_phase. rewrite bind_run. unfold MarketSync.fetch at 1.
  destruct (listing campaign_id) as [offer_ids|e]; [|by exists [], (Raise e)].
  rewrite bind_run. unfold MarketSync.on_own_list at 1.
  destruct (snd (Market.create_stocks date rows warehouse_id offer_ids)) as [stocks|e];
    [|by exists [], (Raise e)].
  destruct (divide_batches stocks 2000 ltac:(lia)) as (batches & Hdivide & Hconcat & Hsize).
  rewrite bind_run. unfold lift at 1. rewrite Hdivide.
  destruct (market_send_batches network (MarketSync.StocksRequest campaign_id) batches
              (sent ++ [MarketSync.ListOffers campaign_id])) as (log & r & Hsend & Hcases).
  exists log, r. split; [by rewrite Hsend, <- app_assoc|].
  by exists batches.
Qed.

Lemma market_main_try_phases (listing : string → res (list string))
    (network : MarketSync.request → res unit) (date_fbs date_dbs : string)
    (rows : list (gmap string PyVal))
    (campaign_fbs_id campaign_dbs_id warehouse_fbs_id warehouse_dbs_id : string)
    (sent : list MarketSync.request) :
  MarketSync.main_try listing network date_fbs date_dbs rows
    campaign_fbs_id campaign_dbs_id warehouse_fbs_id warehouse_dbs_id sent
  = match market_stock_phase listing network date_fbs rows
            campaign_fbs_id warehouse_fbs_id sent with
    | (sent', Ok _) =>
        market_stock_phase listing network date_dbs rows
          campaign_dbs_id warehouse_dbs_id sent'
    | (sent', Raise e) => (sent', Raise e)
    end.
Proof.
  unfold MarketSync.main_try, market_stock_phase.
  rewrite !(bind_run (MarketSync.fetch listing campaign_fbs_id)).
  destruct (MarketSync.fetch listing campaign_fbs_id sent) as [sent1 [ids|e]]; [|done].
  rewrite !(bind_run (MarketSync.on_own_list ids _)).
  destruct (MarketSync.on_own_list ids _ sent1) as [sent2 [stocks|e]]; [|done].
  rewrite !(bind_run (lift (divide stocks 2000))).
  destruct (lift (divide stocks 2000) sent2) as [sent3 [batches|e]]; [|done].
  rewrite bind_run.
  destruct (Seller.for_each _ batches sent3) as [sent4 [[]|e]]; [|done].
  clear. rewrite !(bind_run (MarketSync.fetch listing campaign_dbs_id)).
  destruct (MarketSync.fetch listing campaign_dbs_id sent4) as [s1 [ids|e]]; [|done].
  rewrite !(bind_run (MarketSync.on_own_list ids _)).
  destruct (MarketSync.on_own_list ids _ s1) as [s2 [stocks|e]]; [|done].
  rewrite !(bind_run (lift (divide stocks 2000))).
  destruct (lift (divide stocks 2000) s2) as [s3 [batches|e]]; [|done].
  rewrite bind_run.
  by destruct (Seller.for_each _ batches s3) as [s4 [[]|e]].
Qed.

Lemma market_stock_phase_log (listing : string → res (list string))
    (network : MarketSync.request → res unit) (date : string)
    (rows : list (gmap string PyVal)) (campaign_id warehouse_id : string)
    (sent : list MarketSync.request) :
  ∃ batches r,
    market_stock_phase listing network date rows campaign_id warehouse_id sent
    = (sent ++ MarketSync.ListOffers campaign_id
            :: (MarketSync.StocksRequest campaign_id <$> batches), r).
Proof.
  destruct (market_stock_phase_run listing network date rows campaign_id warehouse_id sent)
    as (log & r & Hrun & Hcases).
  destruct (listing campaign_id) as [offer_ids|e].
  - destruct (snd (Market.create_stocks date rows warehouse_id offer_ids)) as [stocks|e].
    + destruct Hcases as (batches & _ & _ & _ & [(_ & -> & _)|(before & b & after & e & _ & _ & _ & -> & _)]);
        eauto.
    + destruct Hcases as [-> _]. by exists [], r.
  - destruct Hcases as [-> _]. by exists [], r.
Qed.

(** [market.main] never sends a price: the two calls of [upload_prices]
    only build coroutines that nothing awaits.  What goes out is the listing
    of the FBS campaign, stock batches for it and, when that half did not
    raise, the listing of the DBS campaign and stock batches for it. *)
Theorem market_main_sends_no_prices (listing : string → res (list string))
    (network : MarketSync.request → res unit) (date_fbs date_dbs : string)
    (rows : list (gmap string PyVal))
    (campaign_fbs_id campaign_dbs_id warehouse_fbs_id warehouse_dbs_id : string) :
  ∃ first rest,
    MarketSync.main listing network date_fbs date_dbs rows
      campaign_fbs_id campaign_dbs_id warehouse_fbs_id warehouse_dbs_id
    = MarketSync.ListOffers campaign_fbs_id
      :: (MarketSync.StocksRequest campaign_fbs_id <$> first) ++ rest ∧
    (rest = [] ∨
     ∃ second, rest = MarketSync.ListOffers campaign_dbs_id
                      :: (MarketSync.StocksRequest campaign_dbs_id <$> second)) ∧
    Forall (λ q, ¬ MarketSync.is_prices_request q)
      (MarketSync.main listing network date_fbs date_dbs rows
         campaign_fbs_id campaign_dbs_id warehouse_fbs_id warehouse_dbs_id).
Proof.
  assert (∀ campaign_id (batches : list (list Market.Stock)),
            Forall (λ q, ¬ MarketSync.is_prices_request q)
              (MarketSync.StocksRequest campaign_id <$> batches)) as Hstocks.
  { intros c batches. apply Forall_fmap, Forall_forall. intros b _. by intros ?. }
  unfold MarketSync.main. rewrite market_main_try_phases.
  destruct (market_stock_phase_log listing network date_fbs rows
              campaign_fbs_id warehouse_fbs_id []) as (first & r & ->).
  destruct r as [[]|e]; simpl.
  - destruct (market_stock_phase_log listing network date_dbs rows
                campaign_dbs_id warehouse_dbs_id
                (MarketSync.ListOffers campaign_fbs_id
                 :: (MarketSync.StocksRequest campaign_fbs_id <$> first)))
      as (second & r & ->).
    exists first, (MarketSync.ListOffers campaign_dbs_id
                   :: (MarketSync.StocksRequest campaign_dbs_id <$> second)).
    split_and!; [done|right; by exists second|].
    simpl. constructor; [by intros ?|]. apply Forall_app. split; [done|].
    constructor; [by intros ?|done].
  - exists first, []. rewrite app_nil_r.
    split_and!; [done|by left|]. constructor; [by intros ?|done].
Qed.

(** [market.upload_prices], when its body is run, lists the offers of the
    campaign again and, once [create_prices] has returned, sends its output
    in order, in batches of 1 to 500 entries, up to the first batch that
    raises. *)
Theorem market_upload_prices_run (listing : string → res (list string))
    (network : MarketSync.request → res unit) (rows : list (gmap string PyVal))
    (campaign_id : string) (offer_ids : list string) (prices : list Market.Price)
    (sent : list MarketSync.request) :
  listing campaign_id = Ok offer_ids →
  snd (Market.create_prices rows offer_ids) = Ok prices →
  ∃ batches log r,
    divide prices 500 = Ok batches ∧
    concat batches = prices ∧
    Forall (λ batch, 0 < Z.of_nat (length batch) ≤ 500) batches ∧
    MarketSync.upload_prices listing network rows campaign_id sent
    = (sent ++ MarketSync.ListOffers campaign_id :: log, res_map (λ _, prices) r) ∧
    (sent_all network (MarketSync.PricesRequest campaign_id) batches log r ∨
     sent_until_failure network (MarketSync.PricesRequest campaign_id) batches log r).
Proof.
  intros Hlisting Hprices.
  destruct (divide_batches prices 500 ltac:(lia)) as (batches & Hdivide & Hconcat & Hsize).
  destruct (market_send_batches network (MarketSync.PricesRequest campaign_id) batches
              (sent ++ [MarketSync.ListOffers campaign_id])) as (log & r & Hsend & Hcases).
  exists batches, log, r. split_and!; try done.
  unfold MarketSync.upload_prices.
  rewrite bind_run. unfold MarketSync.fetch at 1. rewrite Hlisting.
  rewrite bind_run. unfold MarketSync.on_own_list at 1. rewrite Hprices.
  rewrite bind_run. unfold lift at 1. rewrite Hdivide.
  rewrite bind_run, Hsend, <- app_assoc. by destruct r as [[]|e].
Qed.

(** A failure in the FBS half of [market.main] (the listing raises, a
    quantity of the feed does not convert, or a stock batch is refused) ends
    the run: nothing is requested for the DBS campaign. *)
Theorem market_main_fbs_failure (listing : string → res (list string))
    (network : MarketSync.request → res unit) (date_fbs date_dbs : string)
    (rows : list (gmap string PyVal))
    (campaign_fbs_id campaign_dbs_id warehouse_fbs_id warehouse_dbs_id : string) :
  ((∃ e, listing campaign_fbs_id = Raise e) ∨
   (∃ offer_ids e,
      listing campaign_fbs_id = Ok offer_ids ∧
      snd (Market.create_stocks date_fbs rows warehouse_fbs_id offer_ids) = Raise e) ∨
   (∃ offer_ids stocks batches batch e,
      listing campaign_fbs_id = Ok offer_ids ∧
      snd (Market.create_stocks date_fbs rows warehouse_fbs_id offer_ids) = Ok stocks ∧
      divide stocks 2000 = Ok batches ∧
      batch ∈ batches ∧
      network (MarketSync.StocksRequest campaign_fbs_id batch) = Raise e)) →
  Forall (λ q, MarketSync.campaign_of q = campaign_fbs_id)
    (MarketSync.main listing network date_fbs date_dbs rows
       campaign_fbs_id campaign_dbs_id warehouse_fbs_id warehouse_dbs_id) ∧
  ∃ e, snd (MarketSync.main_try listing network date_fbs date_dbs rows
              campaign_fbs_id campaign_dbs_id warehouse_fbs_id warehouse_dbs_id [])
       = Raise e.
Proof.
  intros Hfail. unfold MarketSync.main. rewrite market_main_try_phases.
  destruct (market_stock_phase_log listing network date_fbs rows
              campaign_fbs_id warehouse_fbs_id []) as (first & r' & Hshape).
  destruct (market_stock_phase_run listing network date_fbs rows
              campaign_fbs_id warehouse_fbs_id []) as (log & r & Hrun & Hcases).
  assert (∃ e, r = Raise e) as [e ->].
  { destruct Hfail as [[e He]|[(ids & e & Hids & He)|(ids & stocks & batches & b & e & Hids & Hs & Hd & Hb & He)]].
    - rewrite He in Hcases. destruct Hcases as [_ ->]. by exists e.
    - rewrite Hids, He in Hcases. destruct Hcases as [_ ->]. by exists e.
    - rewrite Hids, Hs in Hcases.
      destruct Hcases as (batches' & Hd' & _ & _ & [(Hall & _ & _)|(? & ? & ? & e' & _ & _ & _ & _ & ->)]);
        [|by exists e'].
      assert (batches' = batches) as -> by congruence.
      rewrite Forall_forall in Hall. rewrite (Hall b Hb) in He. done. }
  rewrite Hrun in Hshape. injection Hshape as Hlog _.
  rewrite Hrun. simpl. split; [|by exists e].
  rewrite Hlog. constructor; [done|].
  apply Forall_fmap, Forall_forall. by intros b _.
Qed.

(** A run of [market.main] in which nothing raises sends, in this order: the
    listing of the FBS campaign, the FBS stock entries in batches of 1 to
    2000, the listing of the DBS campaign and the DBS stock entries in
    batches of 1 to 2000. *)
Theorem market_main_run (listing : string → res (list string))
    (network : MarketSync.request → res unit) (date_fbs date_dbs : string)
    (rows : list (gmap string PyVal))
    (campaign_fbs_id campaign_dbs_id warehouse_fbs_id warehouse_dbs_id : string)
    (offers_fbs offers_dbs : list string) (stocks_fbs stocks_dbs : list Market.Stock) :
  listing campaign_fbs_id = Ok offers_fbs →
  listing campaign_dbs_id = Ok offers_dbs →
  snd (Market.create_stocks date_fbs rows warehouse_fbs_id offers_fbs) = Ok stocks_fbs →
  snd (Market.create_stocks date_dbs rows warehouse_dbs_id offers_dbs) = Ok stocks_dbs →
  (∀ q, network q = Ok tt) →
  ∃ batches_fbs batches_dbs,
    concat batches_fbs = stocks_fbs ∧
    concat batches_dbs = stocks_dbs ∧
    Forall (λ batch, 0 < Z.of_nat (length batch) ≤ 2000) (batches_fbs ++ batches_dbs) ∧
    MarketSync.main listing network date_fbs date_dbs rows
      campaign_fbs_id campaign_dbs_id warehouse_fbs_id warehouse_dbs_id
    = MarketSync.ListOffers campaign_fbs_id
      :: (MarketSync.StocksRequest campaign_fbs_id <$> batches_fbs)
      ++ MarketSync.ListOffers campaign_dbs_id
      :: (MarketSync.StocksRequest campaign_dbs_id <$> batches_dbs).
Proof.
  intros Hfbs Hdbs Hs1 Hs2 Hnet.
  unfold MarketSync.main. rewrite market_main_try_phases.
  destruct (market_stock_phase_run listing network date_fbs rows
              campaign_fbs_id warehouse_fbs_id []) as (log1 & r1 & -> & Hcases1).
  rewrite Hfbs, Hs1 in Hcases1.
  destruct Hcases1 as (b1 & _ & Hc1 & Hsize1 & [(_ & -> & ->)|(? & b & ? & e & _ & _ & Hb & _)]);
    [|by rewrite Hnet in Hb].
  destruct (market_stock_phase_run listing network date_dbs rows
              campaign_dbs_id warehouse_dbs_id
              ([] ++ MarketSync.ListOffers campaign_fbs_id
                  :: (MarketSync.StocksRequest campaign_fbs_id <$> b1)))
    as (log2 & r2 & -> & Hcases2).
  rewrite Hdbs, Hs2 in Hcases2.
  destruct Hcases2 as (b2 & _ & Hc2 & Hsize2 & [(_ & -> & ->)|(? & b & ? & e & _ & _ & Hb & _)]);
    [|by rewrite Hnet in Hb].
  exists b1, b2. split_and!; [done|done|by apply Forall_app|done].
Qed.

(** [market.upload_stocks], in a run where nothing raises, returns the
    entries that [create_stocks] built and, as non-empty, those among them
    whose count is not 0; reading [items[0]] never fails on these entries. *)
Theorem market_upload_stocks_run (listing : string → res (list string))
    (network : MarketSync.request → res unit) (date : string)
    (rows : list (gmap string PyVal)) (campaign_id warehouse_id : string)
    (offer_ids remaining : list string) (out : list Seller.Stock) :
  listing campaign_id = Ok offer_ids →
  Seller.create_stocks rows offer_ids = (remaining, Ok out) →
  (∀ q, network q = Ok tt) →
  ∃ batches,
    concat batches = to_market date warehouse_id <$> out ∧
    Forall (λ batch, 0 < Z.of_nat (length batch) ≤ 2000) batches ∧
    MarketSync.upload_stocks listing network date rows campaign_id warehouse_id []
    = (MarketSync.ListOffers campaign_id
       :: (MarketSync.StocksRequest campaign_id <$> batches),
       Ok (to_market date warehouse_id <$> filter (λ stock, Seller.stock stock ≠ 0) out,
           to_market date warehouse_id <$> out)).
Proof.
  intros Hlisting Hstocks Hnet.
  destruct (divide_batches (to_market date warehouse_id <$> out) 2000 ltac:(lia))
    as (batches & Hdivide & Hconcat & Hsize).
  destruct (market_send_batches network (MarketSync.StocksRequest campaign_id) batches
              ([] ++ [MarketSync.ListOffers campaign_id])) as (log & r & Hsend & Hcases).
  exists batches. split_and!; [done..|].
  unfold MarketSync.upload_stocks.
  rewrite bind_run. unfold MarketSync.fetch at 1. rewrite Hlisting.
  rewrite bind_run. unfold MarketSync.on_own_list at 1.
  rewrite market_create_stocks, Hstocks. simpl snd. cbv beta iota.
  rewrite bind_run. unfold lift at 1. rewrite Hdivide.
  rewrite bind_run, Hsend.
  destruct Hcases as [(_ & -> & ->)|(? & b & ? & e & _ & _ & Hb & _)];
    [|by rewrite Hnet in Hb].
  rewrite bind_run. unfold lift at 1. by rewrite market_not_empty.
Qed.


(** ** A listing request that fails *)

Lemma seller_offer_ids_loop_raises get_product_list e pages :
  ∀ fuel calls last_id product_list,
    seller_pages_served get_product_list calls last_id pages →
    seller_total_missed (length product_list) pages →
    get_product_list (calls + length pages)%nat (seller_next_last_id last_id pages)
      = Raise e →
    (length pages < fuel)%nat →
    SellerSync.offer_ids_loop fuel get_product_list calls last_id product_list
    = Some (Raise e).
Proof.
  induction pages as [|page pages IH];
    intros fuel calls last_id product_list Hserved Hmissed Hraise Hfuel;
    (destruct fuel as [|fuel]; [simpl in Hfuel; lia|]); simpl.
  - simpl in Hraise. rewrite Nat.add_0_r in Hraise. by rewrite Hraise.
  - destruct Hserved as [-> Hserved]. destruct Hmissed as [Hne Hmissed].
    rewrite length_app. apply Z.eqb_neq in Hne. rewrite Hne.
    apply IH; [done|by rewrite length_app| |simpl in Hfuel; lia].
    replace (S calls + length pages)%nat with (calls + length (page :: pages))%nat
      by (simpl; lia).
    exact Hraise.
Qed.

(** When a page request of [seller.get_offer_ids] raises before any page
    announced a total equal to the number of products received, the call
    ends with that exception: the products of the pages already received are
    not returned. *)
Theorem seller_get_offer_ids_raises
    (get_product_list : nat → string → res SellerSync.Page)
    (pages : list SellerSync.Page) (e : exn) (fuel : nat) :
  seller_pages_served get_product_list 0 EmptyString pages →
  seller_total_missed 0 pages →
  get_product_list (length pages) (seller_next_last_id EmptyString pages) = Raise e →
  (length pages < fuel)%nat →
  SellerSync.get_offer_ids fuel get_product_list = Some (Raise e).
Proof.
  intros Hserved Hmissed Hraise Hfuel. unfold SellerSync.get_offer_ids.
  by apply (seller_offer_ids_loop_raises _ e pages).
Qed.

Lemma market_offer_ids_loop_raises get_product_list e pages :
  ∀ fuel calls page product_list,
    market_pages_served get_product_list calls page pages →
    Forall (λ answer, MarketSync.falsy (MarketSync.nextPageToken answer) = false) pages →
    get_product_list (calls + length pages)%nat (market_next_page page pages) = Raise e →
    (length pages < fuel)%nat →
    MarketSync.offer_ids_loop fuel get_product_list calls page product_list
    = Some (Raise e).
Proof.
  induction pages as [|answer pages IH];
    intros fuel calls page product_list Hserved Hmore Hraise Hfuel;
    (destruct fuel as [|fuel]; [simpl in Hfuel; lia|]); simpl.
  - simpl in Hraise. rewrite Nat.add_0_r in Hraise. by rewrite Hraise.
  - destruct Hserved as [-> Hserved]. apply Forall_cons in Hmore as [-> Hmore].
    apply IH; [done|done| |simpl in Hfuel; lia].
    replace (S calls + length pages)%nat with (calls + length (answer :: pages))%nat
      by (simpl; lia).
    exact Hraise.
Qed.

(** When a page request of [market.get_offer_ids] raises after pages that
    all carried a continuation token, the call ends with that exception and
    returns none of the identifiers received. *)
Theorem market_get_offer_ids_raises
    (get_product_list : nat → option string → res MarketSync.Page)
    (pages : list MarketSync.Page) (e : exn) (fuel : nat) :
  market_pages_served get_product_list 0 (Some EmptyString) pages →
  Forall (λ answer, MarketSync.falsy (MarketSync.nextPageToken answer) = false) pages →
  get_product_list (length pages) (market_next_page (Some EmptyString) pages) = Raise e →
  (length pages < fuel)%nat →
  MarketSync.get_offer_ids fuel get_product_list = Some (Raise e).
Proof.
  intros Hserved Hmore Hraise Hfuel. unfold MarketSync.get_offer_ids.
  by apply (market_offer_ids_loop_raises _ e pages).
Qed.

(** ** A run of [seller.main] without failure *)

(** When the fetched list has no duplicates, [create_stocks] returns and
    every request is answered, [seller.main] sends the stock entries, in
    order, in batches of 1 to 100, and nothing else. *)
Theorem seller_main_sends_all_stocks (network : Seller.request → res unit)
    (rows : list (gmap string PyVal)) (universe remaining : list string)
    (stocks : list Seller.Stock) :
  NoDup universe →
  Seller.create_stocks rows universe = (remaining, Ok stocks) →
  (∀ q, network q = Ok tt) →
  ∃ batches,
    concat batches = stocks ∧
    Forall (λ batch, 0 < Z.of_nat (length batch) ≤ 100) batches ∧
    Seller.main network universe rows = Seller.StocksRequest <$> batches.
Proof.
  intros Hnd Hstocks Hnet.
  destruct (divide_batches stocks 100 ltac:(lia)) as (batches & Hdivide & Hconcat & Hsize).
  destruct (seller_send_batches network Seller.StocksRequest batches remaining [])
    as (log & r & Hsend & Hcases).
  exists batches. split_and!; [done..|].
  unfold Seller.main, Seller.main_try.
  rewrite bind_run, on_offer_ids_run, Hstocks.
  rewrite bind_run. unfold lift at 1. rewrite Hdivide.
  rewrite bind_run, Hsend.
  destruct Hcases as [(_ & -> & ->)|(? & b & ? & e & _ & _ & Hb & _)];
    [|by rewrite Hnet in Hb].
  apply seller_create_stocks_inv in Hstocks as (_ & Hrem & _).
  rewrite bind_run, on_offer_ids_run, seller_create_prices_run.
  rewrite filter_none by (subst remaining; by apply unmatched_disjoint).
  change (res_all seller_price_entry []) with (@Ok (list Seller.Price) []).
  cbv beta iota. rewrite bind_run. unfold lift at 1.
  destruct (divide_ok (@nil Seller.Price) 900 ltac:(lia)) as (none & Hdiv & Hnone).
  rewrite Hdiv, (Hnone eq_refl). done.
Qed.

End Properties.

(** * Closed instances

    The docstring examples, an instance of every statement that has a
    hypothesis, and the inputs on which a sentence of the specification
    fails.  They are stated under [ascii_only]; every text they convert is
    made of ASCII characters. *)

Section Instances.
#[local] Existing Instance ascii_only.

Example row_get :
  dict_get "Количество" (row (PyStr "A") (PyStr ">10") (PyStr "5'990.00 руб.")) = PyStr ">10".
Proof. vm_compute. reflexivity. Qed.

Example int_examples :
  int_of_text " +1_000 " = Ok 1000 ∧ int_of_text "-07" = Ok (-7) ∧
  int_of_text "1__0" = Raise ValueError ∧ int_of_text EmptyString = Raise ValueError ∧
  int_of_text "7.5" = Raise ValueError ∧ py_str (PyInt (-120)) = "-120" ∧
  py_str (PyInt 0) = "0".
Proof. vm_compute. repeat split; reflexivity. Qed.

Example seller_create_stocks_doc :
  Seller.create_stocks [row (PyStr "ABC123") (PyStr "5") PyNone] ["ABC123"; "XYZ789"]
  = (["XYZ789"], Ok [ {| Seller.offer_id := "ABC123"; Seller.stock := 5 |};
                      {| Seller.offer_id := "XYZ789"; Seller.stock := 0 |} ]).
Proof. vm_compute. reflexivity. Qed.

Example seller_create_prices_doc :
  Seller.create_prices [row (PyStr "ABC123") PyNone (PyStr "5'990.00 руб.")] ["ABC123"]
  = (["ABC123"], Ok [ {| Seller.auto_action_enabled := "UNKNOWN";
                         Seller.currency_code := "RUB";
                         Seller.price_offer_id := "ABC123";
                         Seller.old_price := "0";
                         Seller.price := "5990" |} ]).
Proof. vm_compute. reflexivity. Qed.

Example divide_doc :
  divide [1; 2; 3; 4] 2 = Ok [[1; 2]; [3; 4]] ∧ divide (@nil Z) 2 = Ok [].
Proof. vm_compute. split; reflexivity. Qed.

(** C3, as stated, fails on a boolean cell: the text form of [True] is
    neither sentinel nor a numeral, so the spec's rule has no value for it,
    while the code converts the cell itself and obtains 1. *)
Lemma stock_of_count_bool_not_text_rule :
  stock_of_count (PyBool true) = Ok 1 ∧
  quantityNormalize (py_str (PyBool true)) = Raise ValueError ∧
  stock_of_count (PyBool true) ≠ quantityNormalize (py_str (PyBool true)).
Proof. repeat split; [done..|]. by vm_compute. Qed.

Lemma divide_spec_witness :
  0 < 2 ∧
  ∃ chunks,
    divide_gen 2 [1; 2; 3] = ([1; 2; 3], Ok chunks) ∧
    divide [1; 2; 3] 2 = Ok chunks ∧
    concat chunks = [1; 2; 3] ∧
    (∀ k chunk, chunks !! k = Some chunk →
       chunk = take (Z.to_nat 2) (drop (k * Z.to_nat 2) [1; 2; 3])) ∧
    (∀ k chunk, chunks !! k = Some chunk → (S k < length chunks)%nat →
       Z.of_nat (length chunk) = 2) ∧
    (∀ chunk, last chunks = Some chunk → 0 < Z.of_nat (length chunk) ≤ 2) ∧
    ([1; 2; 3] = [] → chunks = []).
Proof. split; [lia|apply (divide_spec [1; 2; 3] 2); lia]. Defined.

(** C1, as stated, fails on a feed with a malformed quantity: the call
    raises and returns no list at all. *)
Lemma create_stocks_no_list_on_bad_quantity :
  Seller.create_stocks [row (PyStr "A") (PyStr "abc") PyNone] ["A"]
    = (["A"], Raise ValueError) ∧
  ¬ ∃ out remaining,
      Seller.create_stocks [row (PyStr "A") (PyStr "abc") PyNone] ["A"]
        = (remaining, Ok out) ∧
      length out = length ["A"].
Proof.
  assert (Seller.create_stocks [row (PyStr "A") (PyStr "abc") PyNone] ["A"]
          = (["A"], Raise ValueError)) as Hrun by (vm_compute; reflexivity).
  split; [done|]. intros (out & remaining & Hok & _). congruence.
Qed.

Lemma create_stocks_spec_witness :
  Forall converts
    (matched [row (PyStr "A") (PyStr "5") PyNone; row (PyStr "A") (PyStr "abc") PyNone]
       ["A"; "B"]) ∧
  ∃ out remaining,
    Seller.create_stocks
      [row (PyStr "A") (PyStr "5") PyNone; row (PyStr "A") (PyStr "abc") PyNone]
      ["A"; "B"] = (remaining, Ok out) ∧
    Market.create_stocks "2024-01-01T00:00:00Z"
      [row (PyStr "A") (PyStr "5") PyNone; row (PyStr "A") (PyStr "abc") PyNone]
      "7" ["A"; "B"]
      = (remaining, Ok (to_market "2024-01-01T00:00:00Z" "7" <$> out)) ∧
    length out = length ["A"; "B"] ∧
    NoDup (Seller.offer_id <$> out) ∧
    remaining = filter (λ x, x ∉ code_of <$>
                  [row (PyStr "A") (PyStr "5") PyNone; row (PyStr "A") (PyStr "abc") PyNone])
                  ["A"; "B"].
Proof.
  assert (Forall converts
    (matched [row (PyStr "A") (PyStr "5") PyNone; row (PyStr "A") (PyStr "abc") PyNone]
       ["A"; "B"])) as Hok.
  { apply (bool_decide_unpack _). vm_compute. reflexivity. }
  assert (NoDup ["A"; "B"]) as Hnd.
  { apply (bool_decide_unpack _). vm_compute. reflexivity. }
  split; [exact Hok|].
  destruct (create_stocks_spec _ _ Hok)
    as (out & remaining & hits & _ & Hrun & Hmarket & Hlen & _ & _ & Hids & _ & _ & _ & _ & Hfirst).
  exists out, remaining.
  split; [exact Hrun|]. split; [exact (Hmarket _ _)|]. split; [exact Hlen|].
  split; [exact (Hids Hnd)|exact (proj2 (Hfirst Hnd))].
Defined.

(** C2, as stated, fails: the matched identifier is gone from the caller's
    list when [create_stocks] returns. *)
Lemma create_stocks_mutates_offer_ids :
  Seller.create_stocks [row (PyStr "A") (PyStr "5") PyNone] ["A"; "B"]
    = (["B"], Ok [seller_entry (row (PyStr "A") (PyStr "5") PyNone); seller_zero "B"]) ∧
  fst (Seller.create_stocks [row (PyStr "A") (PyStr "5") PyNone] ["A"; "B"])
    ≠ ["A"; "B"].
Proof. split; [vm_compute; reflexivity|]. vm_compute. discriminate. Qed.

Lemma create_stocks_in_place_witness :
  Seller.create_stocks [row (PyStr "A") (PyStr "5") PyNone] ["A"; "B"]
    = (["B"], Ok [seller_entry (row (PyStr "A") (PyStr "5") PyNone); seller_zero "B"]) ∧
  sublist ["B"] ["A"; "B"].
Proof.
  assert (Seller.create_stocks [row (PyStr "A") (PyStr "5") PyNone] ["A"; "B"]
    = (["B"], Ok [seller_entry (row (PyStr "A") (PyStr "5") PyNone); seller_zero "B"]))
    as Hrun by (vm_compute; reflexivity).
  split; [exact Hrun|].
  exact (proj1 (proj2 (create_stocks_in_place _ _ _ _ Hrun))).
Defined.

Lemma reconcile_twice_witness :
  apart (Seller.create_stocks [row (PyStr "A") (PyStr "5") PyNone])
        (Seller.create_stocks [row (PyStr "A") (PyStr "5") PyNone]) (["A"], ["A"])
  = (([], []), Ok ([seller_entry (row (PyStr "A") (PyStr "5") PyNone)],
                   [seller_entry (row (PyStr "A") (PyStr "5") PyNone)])).
Proof.
  exact (proj1 (proj2 (proj2
    (reconcile_twice [row (PyStr "A") (PyStr "5") PyNone] ["A"])))).
Defined.


(** C4, as stated, fails on a repeated row: the second row for ["A"] has its
    code in the offer universe and a quantity that is neither sentinel nor a
    numeral, yet the call returns a list, because the code was removed from
    the working list by the first row. *)
Lemma create_stocks_skips_repeated_bad_row :
  code_of (row (PyStr "A") (PyStr "abc") PyNone) ∈ ["A"] ∧
  quantityNormalize (py_str (count_of (row (PyStr "A") (PyStr "abc") PyNone)))
    = Raise ValueError ∧
  Seller.create_stocks
    [row (PyStr "A") (PyStr "5") PyNone; row (PyStr "A") (PyStr "abc") PyNone] ["A"]
    = ([], Ok [seller_entry (row (PyStr "A") (PyStr "5") PyNone)]).
Proof.
  split_and!; [|vm_compute; reflexivity..].
  apply (bool_decide_unpack _). vm_compute. reflexivity.
Qed.

Lemma create_stocks_bad_quantity_witness :
  ∃ remaining e,
    Seller.create_stocks
      ([row (PyStr "B") (PyStr "3") PyNone]
       ++ row (PyStr "A") (PyStr "abc") PyNone
       :: [row (PyStr "B") (PyStr "7") PyNone]) ["A"; "B"]
    = (remaining, Raise e) ∧ (e = ValueError ∨ e = TypeError).
Proof.
  apply (create_stocks_bad_quantity
           ([row (PyStr "B") (PyStr "3") PyNone]
            ++ row (PyStr "A") (PyStr "abc") PyNone
            :: [row (PyStr "B") (PyStr "7") PyNone])
           (row (PyStr "A") (PyStr "abc") PyNone) ["A"; "B"]).
  - right. exists [row (PyStr "B") (PyStr "3") PyNone], [row (PyStr "B") (PyStr "7") PyNone].
    split; [reflexivity|]. split; apply (bool_decide_unpack _); vm_compute; reflexivity.
  - vm_compute. discriminate.
  - vm_compute. discriminate.
  - vm_compute. reflexivity.
Defined.

Lemma seller_main_sends_no_prices_witness :
  NoDup ["A"; "B"] ∧
  Forall is_stocks_request
    (Seller.main (λ _, Ok tt) ["A"; "B"]
       [row (PyStr "A") (PyStr "5") (PyStr "5'990.00 руб.")]).
Proof.
  assert (NoDup ["A"; "B"]) as Hnd by (apply (bool_decide_unpack _); vm_compute; reflexivity).
  split; [exact Hnd|].
  exact (proj2 (proj2 (seller_main_sends_no_prices (λ _, Ok tt)
    [row (PyStr "A") (PyStr "5") (PyStr "5'990.00 руб.")] ["A"; "B"] Hnd))).
Defined.

Example seller_main_run :
  Seller.main (λ _, Ok tt) ["A"; "B"] [row (PyStr "A") (PyStr "5") (PyStr "5'990.00 руб.")]
  = [Seller.StocksRequest
       [seller_entry (row (PyStr "A") (PyStr "5") (PyStr "5'990.00 руб.")); seller_zero "B"]].
Proof. vm_compute. reflexivity. Qed.

(** C6, as stated, fails for [market.create_prices]: a matched row whose
    price text has no digit makes the call raise, so no entry is produced
    for it. *)
Lemma market_create_prices_raises :
  code_of (row (PyStr "A") (PyStr "5") (PyStr "руб.")) ∈ ["A"] ∧
  Market.create_prices [row (PyStr "A") (PyStr "5") (PyStr "руб.")] ["A"]
    = (["A"], Raise ValueError) ∧
  ¬ ∃ prices,
      snd (Market.create_prices [row (PyStr "A") (PyStr "5") (PyStr "руб.")] ["A"])
        = Ok prices.
Proof.
  assert (Market.create_prices [row (PyStr "A") (PyStr "5") (PyStr "руб.")] ["A"]
          = (["A"], Raise ValueError)) as Hrun by (vm_compute; reflexivity).
  split_and!; [|done|].
  - apply (bool_decide_unpack _). vm_compute. reflexivity.
  - rewrite Hrun. by intros [prices ?].
Qed.

Lemma create_prices_spec_witness :
  (∃ prices,
     Seller.create_prices
       [row (PyStr "A") (PyStr "5") (PyStr "1234.50");
        row (PyStr "C") (PyStr "5") PyNone;
        row (PyStr "A") (PyStr "5") (PyStr EmptyString)] ["A"; "B"]
     = (["A"; "B"], Ok prices)) ∧
  Seller.create_prices
    [row (PyStr "A") (PyStr "5") (PyStr "1234.50");
     row (PyStr "B") (PyStr "5") PyNone] ["A"; "B"]
  = (["A"; "B"], Raise AttributeError) ∧
  (∃ prices,
     Market.create_prices
       [row (PyStr "A") (PyStr "5") (PyStr "1234.50");
        row (PyStr "C") (PyStr "5") (PyStr "руб.");
        row (PyStr "A") (PyStr "5") (PyStr "5'990.00 руб.")] ["A"; "B"]
     = (["A"; "B"], Ok prices)) ∧
  (∃ e,
     Market.create_prices
       [row (PyStr "A") (PyStr "5") (PyStr "1234.50");
        row (PyStr "B") (PyStr "5") (PyStr "руб.")] ["A"; "B"]
     = (["A"; "B"], Raise e)).
Proof.
  split_and!.
  - destruct (proj1 (create_prices_spec
        [row (PyStr "A") (PyStr "5") (PyStr "1234.50");
         row (PyStr "C") (PyStr "5") PyNone;
         row (PyStr "A") (PyStr "5") (PyStr EmptyString)] ["A"; "B"]))
      as (prices & Hrun & _); [|by exists prices].
    apply Forall_forall. intros watch [Hcode Hin]%list_elem_of_filter.
    apply elem_of_cons in Hin as [->|Hin]; [eexists; vm_compute; reflexivity|].
    apply elem_of_cons in Hin as [->|Hin].
    { exfalso. revert Hcode. apply (bool_decide_unpack _). vm_compute. reflexivity. }
    apply elem_of_cons in Hin as [->|Hin]; [eexists; vm_compute; reflexivity|].
    by apply elem_of_nil in Hin.
  - apply (proj1 (proj2 (create_prices_spec
        [row (PyStr "A") (PyStr "5") (PyStr "1234.50");
         row (PyStr "B") (PyStr "5") PyNone] ["A"; "B"]))).
    apply Exists_exists. exists (row (PyStr "B") (PyStr "5") PyNone). split.
    + apply list_elem_of_filter. split; [|by right; left].
      apply (bool_decide_unpack _). vm_compute. reflexivity.
    + intros [text Hprice]. vm_compute in Hprice. discriminate.
  - destruct (proj1 (proj2 (proj2 (create_prices_spec
        [row (PyStr "A") (PyStr "5") (PyStr "1234.50");
         row (PyStr "C") (PyStr "5") (PyStr "руб.");
         row (PyStr "A") (PyStr "5") (PyStr "5'990.00 руб.")] ["A"; "B"]))))
      as (prices & Hrun & _); [|by exists prices].
    apply Forall_forall. intros watch [Hcode Hin]%list_elem_of_filter.
    apply elem_of_cons in Hin as [->|Hin].
    { exists "1234.50", "1234". split_and!; [vm_compute; reflexivity..|discriminate]. }
    apply elem_of_cons in Hin as [->|Hin].
    { exfalso. revert Hcode. apply (bool_decide_unpack _). vm_compute. reflexivity. }
    apply elem_of_cons in Hin as [->|Hin]; [|by apply elem_of_nil in Hin].
    exists "5'990.00 руб.", "5990". split_and!; [vm_compute; reflexivity..|discriminate].
  - destruct (proj2 (proj2 (proj2 (create_prices_spec
        [row (PyStr "A") (PyStr "5") (PyStr "1234.50");
         row (PyStr "B") (PyStr "5") (PyStr "руб.")] ["A"; "B"]))))
      as (e & Hrun & _); [|by exists e].
    apply Exists_exists. exists (row (PyStr "B") (PyStr "5") (PyStr "руб.")). split.
    + apply list_elem_of_filter. split; [|by right; left].
      apply (bool_decide_unpack _). vm_compute. reflexivity.
    + intros (text & digits & Hprice & Hconv & Hne).
      vm_compute in Hprice. injection Hprice as <-.
      vm_compute in Hconv. congruence.
Defined.


Lemma divide_nonpositive_witness :
  -1 ≤ 0 ∧ divide [1; 2; 3] (-1) = Ok [].
Proof.
  split; [lia|].
  exact (proj2 (divide_nonpositive [1; 2; 3] (-1) ltac:(lia))).
Defined.

Lemma divide_count_witness :
  0 < 100 ∧
  ∃ chunks, divide [1; 2; 3] 100 = Ok chunks ∧ Z.of_nat (length chunks) = 1.
Proof.
  split; [lia|].
  destruct (divide_count [1; 2; 3] 100 ltac:(lia)) as (chunks & Hrun & Hlen & _).
  exists chunks. split; [exact Hrun|exact Hlen].
Defined.

Lemma seller_prices_shape_witness :
  Forall (λ p,
            Seller.price_offer_id p ∈ ["A"] ∧
            Forall (λ c, is_digit c = true) (chars (Seller.price p)) ∧
            Seller.auto_action_enabled p = "UNKNOWN" ∧
            Seller.currency_code p = "RUB" ∧
            Seller.old_price p = "0")
    [ {| Seller.auto_action_enabled := "UNKNOWN";
         Seller.currency_code := "RUB";
         Seller.price_offer_id := "A";
         Seller.old_price := "0";
         Seller.price := "5990" |} ].
Proof.
  apply (seller_prices_shape [row (PyStr "A") (PyStr "5") (PyStr "5'990.00 руб.")]
           ["A"] ["A"]).
  vm_compute. reflexivity.
Defined.

Lemma market_prices_shape_witness :
  Forall (λ p,
            Market.id p ∈ ["A"] ∧
            0 ≤ Market.value (Market.price p) ∧
            Market.currencyId (Market.price p) = "RUR")
    [ {| Market.id := "A";
         Market.price := {| Market.value := 5990; Market.currencyId := "RUR" |} |} ].
Proof.
  apply (market_prices_shape [row (PyStr "A") (PyStr "5") (PyStr "5'990.00 руб.")]
           ["A"] ["A"]).
  vm_compute. reflexivity.
Defined.

Lemma seller_get_offer_ids_returns_witness :
  SellerSync.get_offer_ids 5
    (λ calls _,
       Ok (if Nat.eqb calls 0
           then {| SellerSync.items := ["A"; "B"]; SellerSync.total := 3;
                   SellerSync.last_id := "p1" |}
           else {| SellerSync.items := ["C"]; SellerSync.total := 3;
                   SellerSync.last_id := "p2" |}))
  = Some (Ok ["A"; "B"; "C"]).
Proof.
  apply (seller_get_offer_ids_returns _
           [ {| SellerSync.items := ["A"; "B"]; SellerSync.total := 3;
                SellerSync.last_id := "p1" |};
             {| SellerSync.items := ["C"]; SellerSync.total := 3;
                SellerSync.last_id := "p2" |} ] 5).
  - simpl. repeat split; reflexivity.
  - simpl. split; [lia|reflexivity].
  - simpl. lia.
Defined.

Lemma seller_get_offer_ids_overshoot_witness :
  SellerSync.get_offer_ids 50
    (λ _ _, Ok {| SellerSync.items := ["A"; "B"]; SellerSync.total := 1;
                  SellerSync.last_id := "p" |})
  = None.
Proof.
  apply (seller_get_offer_ids_overshoot _ 1).
  - intros calls last_id. eexists. split; reflexivity.
  - intros page [= <-]. simpl. lia.
Defined.

Lemma market_get_offer_ids_returns_witness :
  MarketSync.get_offer_ids 2
    (λ calls _,
       Ok (if Nat.eqb calls 0
           then {| MarketSync.offerMappingEntries := ["A"; "B"];
                   MarketSync.nextPageToken := Some "t" |}
           else {| MarketSync.offerMappingEntries := ["C"];
                   MarketSync.nextPageToken := None |}))
  = Some (Ok ["A"; "B"; "C"]).
Proof.
  apply (market_get_offer_ids_returns _
           [ {| MarketSync.offerMappingEntries := ["A"; "B"];
                MarketSync.nextPageToken := Some "t" |};
             {| MarketSync.offerMappingEntries := ["C"];
                MarketSync.nextPageToken := None |} ] 2).
  - simpl. repeat split; reflexivity.
  - simpl. split; reflexivity.
  - simpl. lia.
Defined.

Lemma market_get_offer_ids_endless_witness :
  MarketSync.get_offer_ids 50
    (λ _ _, Ok {| MarketSync.offerMappingEntries := ["A"];
                  MarketSync.nextPageToken := Some "again" |})
  = None.
Proof.
  apply market_get_offer_ids_endless.
  intros calls page. eexists. split; reflexivity.
Defined.

Lemma seller_upload_stocks_run_witness :
  ∃ batches log r,
    divide [seller_entry (row (PyStr "A") (PyStr "5") PyNone); seller_zero "B"] 100
      = Ok batches ∧
    concat batches = [seller_entry (row (PyStr "A") (PyStr "5") PyNone); seller_zero "B"] ∧
    Forall (λ batch, 0 < Z.of_nat (length batch) ≤ 100) batches ∧
    SellerSync.upload_stocks (λ _, Ok tt) [row (PyStr "A") (PyStr "5") PyNone] (["A"; "B"], [])
    = ((["B"], log),
       res_map (λ _, (filter (λ stock, Seller.stock stock ≠ 0)
                        [seller_entry (row (PyStr "A") (PyStr "5") PyNone); seller_zero "B"],
                      [seller_entry (row (PyStr "A") (PyStr "5") PyNone); seller_zero "B"])) r) ∧
    (sent_all (λ _, Ok tt) Seller.StocksRequest batches log r ∨
     sent_until_failure (λ _, Ok tt) Seller.StocksRequest batches log r).
Proof.
  apply (seller_upload_stocks_run (λ _, Ok tt) [row (PyStr "A") (PyStr "5") PyNone]
           ["A"; "B"] ["B"]).
  vm_compute. reflexivity.
Defined.

Lemma seller_upload_stocks_not_empty_witness :
  [seller_entry (row (PyStr "A") (PyStr "5") PyNone)]
  = filter (λ stock, Seller.stock stock ≠ 0)
      [seller_entry (row (PyStr "A") (PyStr "5") PyNone); seller_zero "B"].
Proof.
  refine (proj1 (seller_upload_stocks_not_empty (λ _, Ok tt)
                   [row (PyStr "A") (PyStr "5") PyNone] ["A"; "B"]
                   (["B"], [Seller.StocksRequest
                              [seller_entry (row (PyStr "A") (PyStr "5") PyNone);
                               seller_zero "B"]])
                   _ _ _)).
  vm_compute. reflexivity.
Defined.

Lemma seller_upload_stocks_empty_feed_witness :
  ∃ batches,
    divide (seller_zero <$> ["A"; "B"]) 100 = Ok batches ∧
    SellerSync.upload_stocks (λ _, Ok tt) [] (["A"; "B"], [])
    = ((["A"; "B"], Seller.StocksRequest <$> batches),
       Ok ([], seller_zero <$> ["A"; "B"])).
Proof. apply (seller_upload_stocks_empty_feed (λ _, Ok tt) ["A"; "B"]). reflexivity. Defined.

Lemma seller_upload_prices_run_witness :
  Seller.price_offer_id <$>
    [ {| Seller.auto_action_enabled := "UNKNOWN"; Seller.currency_code := "RUB";
         Seller.price_offer_id := "A"; Seller.old_price := "0";
         Seller.price := "5990" |} ]
  = code_of <$> filter (λ watch, code_of watch ∈ ["A"; "B"])
                  [row (PyStr "A") (PyStr "5") (PyStr "5'990.00 руб.")].
Proof.
  refine (proj1 (seller_upload_prices_run (λ _, Ok tt)
                   [row (PyStr "A") (PyStr "5") (PyStr "5'990.00 руб.")] ["A"; "B"] _ _)).
  vm_compute. reflexivity.
Defined.

Lemma market_upload_prices_run_witness :
  ∃ batches log r,
    divide [ {| Market.id := "A";
                Market.price := {| Market.value := 5990; Market.currencyId := "RUR" |} |} ]
      500 = Ok batches ∧
    concat batches
    = [ {| Market.id := "A";
           Market.price := {| Market.value := 5990; Market.currencyId := "RUR" |} |} ] ∧
    Forall (λ batch, 0 < Z.of_nat (length batch) ≤ 500) batches ∧
    MarketSync.upload_prices (λ _, Ok ["A"; "B"]) (λ _, Ok tt)
      [row (PyStr "A") (PyStr "5") (PyStr "5'990.00 руб.")] "fbs" []
    = ([] ++ MarketSync.ListOffers "fbs" :: log,
       res_map (λ _, [ {| Market.id := "A";
                          Market.price := {| Market.value := 5990;
                                             Market.currencyId := "RUR" |} |} ]) r) ∧
    (sent_all (λ _, Ok tt) (MarketSync.PricesRequest "fbs") batches log r ∨
     sent_until_failure (λ _, Ok tt) (MarketSync.PricesRequest "fbs") batches log r).
Proof.
  apply (market_upload_prices_run (λ _, Ok ["A"; "B"]) (λ _, Ok tt)
           [row (PyStr "A") (PyStr "5") (PyStr "5'990.00 руб.")] "fbs" ["A"; "B"]).
  - reflexivity.
  - vm_compute. reflexivity.
Defined.

Lemma market_main_fbs_failure_witness :
  Forall (λ q, MarketSync.campaign_of q = "fbs")
    (MarketSync.main (λ _, Ok ["A"]) (λ _, Ok tt) "t1" "t2"
       [row (PyStr "A") (PyStr "abc") PyNone] "fbs" "dbs" "w1" "w2").
Proof.
  refine (proj1 (market_main_fbs_failure (λ _, Ok ["A"]) (λ _, Ok tt) "t1" "t2"
                   [row (PyStr "A") (PyStr "abc") PyNone] "fbs" "dbs" "w1" "w2" _)).
  right. left. exists ["A"], ValueError. split; [reflexivity|vm_compute; reflexivity].
Defined.

Lemma market_main_run_witness :
  ∃ batches_fbs batches_dbs,
    MarketSync.main (λ _, Ok ["A"]) (λ _, Ok tt) "t1" "t2"
      [row (PyStr "A") (PyStr "5") PyNone] "fbs" "dbs" "w1" "w2"
    = MarketSync.ListOffers "fbs" :: (MarketSync.StocksRequest "fbs" <$> batches_fbs)
      ++ MarketSync.ListOffers "dbs" :: (MarketSync.StocksRequest "dbs" <$> batches_dbs).
Proof.
  destruct (market_main_run (λ _, Ok ["A"]) (λ _, Ok tt) "t1" "t2"
              [row (PyStr "A") (PyStr "5") PyNone] "fbs" "dbs" "w1" "w2"
              ["A"] ["A"]
              [to_market "t1" "w1" (seller_entry (row (PyStr "A") (PyStr "5") PyNone))]
              [to_market "t2" "w2" (seller_entry (row (PyStr "A") (PyStr "5") PyNone))])
    as (b1 & b2 & _ & _ & _ & Hrun).
  - reflexivity.
  - reflexivity.
  - vm_compute. reflexivity.
  - vm_compute. reflexivity.
  - reflexivity.
  - exists b1, b2. exact Hrun.
Defined.

Lemma market_upload_stocks_run_witness :
  ∃ batches,
    concat batches
    = to_market "t" "w" <$> [seller_entry (row (PyStr "A") (PyStr "1") PyNone); seller_zero "B"] ∧
    MarketSync.upload_stocks (λ _, Ok ["A"; "B"]) (λ _, Ok tt) "t"
      [row (PyStr "A") (PyStr "1") PyNone] "fbs" "w" []
    = (MarketSync.ListOffers "fbs" :: (MarketSync.StocksRequest "fbs" <$> batches),
       Ok (to_market "t" "w" <$>
             filter (λ stock, Seller.stock stock ≠ 0)
               [seller_entry (row (PyStr "A") (PyStr "1") PyNone); seller_zero "B"],
           to_market "t" "w" <$>
             [seller_entry (row (PyStr "A") (PyStr "1") PyNone); seller_zero "B"])).
Proof.
  destruct (market_upload_stocks_run (λ _, Ok ["A"; "B"]) (λ _, Ok tt) "t"
              [row (PyStr "A") (PyStr "1") PyNone] "fbs" "w" ["A"; "B"] ["B"]
              [seller_entry (row (PyStr "A") (PyStr "1") PyNone); seller_zero "B"])
    as (batches & Hconcat & _ & Hrun).
  - reflexivity.
  - vm_compute. reflexivity.
  - reflexivity.
  - exists batches. split; [exact Hconcat|exact Hrun].
Defined.

Lemma seller_get_offer_ids_raises_witness :
  SellerSync.get_offer_ids 2
    (λ calls _,
       if Nat.eqb calls 0
       then Ok {| SellerSync.items := ["A"; "B"]; SellerSync.total := 3;
                  SellerSync.last_id := "p1" |}
       else Raise HTTPError)
  = Some (Raise HTTPError).
Proof.
  apply (seller_get_offer_ids_raises _
           [ {| SellerSync.items := ["A"; "B"]; SellerSync.total := 3;
                SellerSync.last_id := "p1" |} ] HTTPError 2).
  - simpl. split; reflexivity.
  - simpl. split; [lia|exact I].
  - reflexivity.
  - simpl. lia.
Defined.

Lemma market_get_offer_ids_raises_witness :
  MarketSync.get_offer_ids 2
    (λ calls _,
       if Nat.eqb calls 0
       then Ok {| MarketSync.offerMappingEntries := ["A"];
                  MarketSync.nextPageToken := Some "t" |}
       else Raise HTTPError)
  = Some (Raise HTTPError).
Proof.
  apply (market_get_offer_ids_raises _
           [ {| MarketSync.offerMappingEntries := ["A"];
                MarketSync.nextPageToken := Some "t" |} ] HTTPError 2).
  - simpl. split; reflexivity.
  - repeat constructor.
  - reflexivity.
  - simpl. lia.
Defined.

Lemma seller_main_sends_all_stocks_witness :
  ∃ batches,
    concat batches = [seller_entry (row (PyStr "A") (PyStr "5") PyNone); seller_zero "B"] ∧
    Seller.main (λ _, Ok tt) ["A"; "B"] [row (PyStr "A") (PyStr "5") PyNone]
    = Seller.StocksRequest <$> batches.
Proof.
  destruct (seller_main_sends_all_stocks (λ _, Ok tt)
              [row (PyStr "A") (PyStr "5") PyNone] ["A"; "B"] ["B"]
              [seller_entry (row (PyStr "A") (PyStr "5") PyNone); seller_zero "B"])
    as (batches & Hconcat & _ & Hrun).
  - apply (bool_decide_unpack _). vm_compute. reflexivity.
  - vm_compute. reflexivity.
  - reflexivity.
  - exists batches. split; [exact Hconcat|exact Hrun].
Defined.

End Instances.
